(** * ssl-checker-go: the SSL Labs command-line client, embedded in Rocq

    The program of [main.go] is translated function by function.  Its
    effects are made explicit: a computation runs in a [World] holding the
    responses the HTTP service is going to give and the chronological trace
    of what the process did (requests, standard output, sleeps), and ends
    in an [Outcome]: a normal return, a runtime panic, [os.Exit], or
    starvation when the scripted responses run out. *)

From Stdlib Require Import ZArith List String Ascii Bool Lia DecimalString.
Import ListNotations.
Local Open Scope list_scope.
Local Open Scope string_scope.
Local Open Scope Z_scope.

(** ** Data model (the three JSON structs) *)

(** Go's [int] and [int64] fields are held as [Z]; the program performs no
    arithmetic on them besides the comparisons, the [+1] on loop counters
    kept below a slice length, and the division of [TestTime] by 1000, so
    no wrap-around can occur. *)

Module Info.
Record t : Type := mk {
  Version : string;
  CriteriaVersion : string;
  MaxAssessments : Z;
  CurrentAssessments : Z;
  NewAssessmentCoolOff : Z;
  Messages : list string
}.
End Info.

Module Endpoint.
Record t : Type := mk {
  IpAddress : string;
  ServerName : string;
  StatusMessage : string;
  StatusDetails : string;
  Grade : string;
  GradeTrustIgnored : string;
  HasWarnings : bool;
  Progress : Z;
  Duration : Z;
  Eta : Z
}.
End Endpoint.

Module Host.
Record t : Type := mk {
  Host : string;
  Port : Z;
  Protocol : string;
  IsPublic : bool;
  Status : string;
  StatusMessage : string;
  StartTime : Z;
  TestTime : Z;
  EngineVersion : string;
  CriteriaVersion : string;
  Endpoints : list Endpoint.t
}.
End Host.

(** A Go [(value, error)] pair in which exactly one side is set. *)
Inductive result (A : Type) : Type :=
| Ok (a : A)
| Err (err : string).
Arguments Ok {A} a.
Arguments Err {A} err.

(** ** The HTTP service as the client sees it *)

(** The text of a response body.  The program observes it only through
    [json.Unmarshal] at its two record types, so a document is given by
    what those two decodings return. *)
Record Document : Type := {
  asInfo : result Info.t;
  asHost : result Host.t
}.

Inductive Body : Type :=
| Unreadable (err : string)
| Readable (doc : Document).

Record Response : Type := {
  StatusCode : Z;
  Status : string;
  RespBody : Body
}.

(** What [client.Get] returns: a transport error or a response. *)
Inductive GetResult : Type :=
| GetErr (err : string)
| GetOk (resp : Response).

Definition http_StatusOK : Z := 200.

Definition io_ReadAll (b : Body) : result Document :=
  match b with
  | Unreadable err => Err err
  | Readable doc => Ok doc
  end.

Definition json_Unmarshal_Info (d : Document) : result Info.t := asInfo d.
Definition json_Unmarshal_Host (d : Document) : result Host.t := asHost d.

(** ** Worlds, outcomes and the monad of effects *)

(** What the process does that can be observed from outside, in the
    order it does it: a GET request, text written to standard output, the
    flag descriptions written to standard error, a pause. *)
Inductive Event : Type :=
| HttpGet (url : string)
| Stdout (text : string)
| Usage
| Sleep (seconds : Z).

(** [script]: the answers the service has still to give, one per request;
    [trace]: the events so far, oldest first; [zone]: the offset of the
    local time zone, in seconds east of UTC, at a given Unix time. *)
Record World : Type := {
  script : list GetResult;
  trace : list Event;
  zone : Z -> Z
}.

(** The runtime error of an access [l[index]] to a slice of [length]
    elements. *)
Inductive Panic : Type :=
| IndexOutOfRange (index length : Z).

(** How a computation ends: it returns a value, panics, calls [os.Exit],
    or is left waiting for an answer the script does not hold. *)
Inductive Outcome (A : Type) : Type :=
| Returned (a : A) (w : World)
| Panicked (p : Panic) (w : World)
| Exited (code : Z) (w : World)
| Starved (w : World).
Arguments Returned {A} a w.
Arguments Panicked {A} p w.
Arguments Exited {A} code w.
Arguments Starved {A} w.

Definition IO (A : Type) : Type := World -> Outcome A.

Definition ret {A} (a : A) : IO A := fun w => Returned a w.

Definition bind {A B} (m : IO A) (k : A -> IO B) : IO B :=
  fun w =>
    match m w with
    | Returned a w' => k a w'
    | Panicked p w' => Panicked p w'
    | Exited c w' => Exited c w'
    | Starved w' => Starved w'
    end.

Notation "x <- m ;; k" := (bind m (fun x => k))
  (at level 61, m at next level, right associativity).
Notation "m ;; k" := (bind m (fun _ => k))
  (at level 61, right associativity).

Definition emit (e : Event) (w : World) : World :=
  {| script := script w; trace := (trace w ++ [e])%list; zone := zone w |}.

(** The world once the service has answered: [rest] is still to come. *)
Definition answered (rest : list GetResult) (w : World) : World :=
  {| script := rest; trace := trace w; zone := zone w |}.

Definition nl : string := String "010"%char EmptyString.

(** [fmt.Printf] with its arguments already formatted. *)
Definition Printf (text : string) : IO unit :=
  fun w => Returned tt (emit (Stdout text) w).

Definition Println (text : string) : IO unit := Printf (text ++ nl).

(** [flag.PrintDefaults]: the flag descriptions, on standard error. *)
Definition flag_PrintDefaults : IO unit :=
  fun w => Returned tt (emit Usage w).

Definition os_Exit {A} (code : Z) : IO A := fun w => Exited code w.

Definition time_Sleep (seconds : Z) : IO unit :=
  fun w => Returned tt (emit (Sleep seconds) w).

Definition panic {A} (p : Panic) : IO A := fun w => Panicked p w.

Definition len {A} (l : list A) : Z := Z.of_nat (List.length l).

(** The bounds-checked slice access [l[i]]. *)
Definition index {A} (l : list A) (i : Z) : IO A :=
  if (0 <=? i) && (i <? len l) then
    match nth_error l (Z.to_nat i) with
    | Some a => ret a
    | None => panic (IndexOutOfRange i (len l))
    end
  else panic (IndexOutOfRange i (len l)).

(** [client.Get]: the request is recorded, and the next scripted answer is
    consumed.  With no answer left the process is still waiting. *)
Definition http_Get (url : string) : IO GetResult :=
  fun w =>
    match script w with
    | [] => Starved (emit (HttpGet url) w)
    | r :: rest => Returned r (answered rest (emit (HttpGet url) w))
    end.

(** [%d] and [%t]. *)
Definition fmt_d (z : Z) : string := NilZero.string_of_int (Z.to_int z).
Definition fmt_t (b : bool) : string := if b then "true" else "false".

(** ** The client *)

Record SSLClient : Type := {
  baseurl : string;
  timeout : Z
}.

(** Lines 54 to 59; the timeout is in seconds. *)
Definition NewSSLClient : SSLClient :=
  {| baseurl := "https://api.ssllabs.com/api/v2"; timeout := 30 |}.

(** Lines 61 to 89.  The only operation that looks at the status code. *)
Definition CheckApiStatus (s : SSLClient) : IO (result Info.t) :=
  r <- http_Get (baseurl s ++ "/info") ;;
  match r with
  | GetErr err => ret (Err ("failed to reach SSL Labs API: " ++ err))
  | GetOk resp =>
      if negb (StatusCode resp =? http_StatusOK) then
        ret (Err ("API returned non-OK status: " ++ Status resp))
      else
        match io_ReadAll (RespBody resp) with
        | Err err => ret (Err ("failed to read API response: " ++ err))
        | Ok body =>
            match json_Unmarshal_Info body with
            | Err err => ret (Err ("failed to parse API response: " ++ err))
            | Ok info =>
                Println "SSL Labs API is reachable." ;;
                Printf ("Criteria Version: " ++ Info.CriteriaVersion info ++ nl) ;;
                Printf ("Concurrent assessments allowed: "
                        ++ fmt_d (Info.MaxAssessments info) ++ nl) ;;
                Printf ("Current assessments: "
                        ++ fmt_d (Info.CurrentAssessments info) ++ nl) ;;
                ret (Ok info)
            end
        end
  end.

(** Lines 92 to 96: the URL of the start request. *)
Definition startUrl (s : SSLClient) (domain : string) (publish : bool) : string :=
  let url := baseurl s ++ "/analyze?host=" ++ domain ++ "&all=done&startNew=on" in
  if publish then url ++ "&publish=on" else url.

(** Lines 91 to 114. *)
Definition StartAssessment (s : SSLClient) (domain : string) (publish : bool)
  : IO (result Host.t) :=
  r <- http_Get (startUrl s domain publish) ;;
  match r with
  | GetErr err => ret (Err ("failed to start assessment: " ++ err))
  | GetOk resp =>
      match io_ReadAll (RespBody resp) with
      | Err err => ret (Err ("failed to read assessment response: " ++ err))
      | Ok body =>
          match json_Unmarshal_Host body with
          | Err err => ret (Err ("failed to parse assessment response: " ++ err))
          | Ok host => ret (Ok host)
          end
      end
  end.

(** Line 117: the URL of the status request. *)
Definition statusUrl (s : SSLClient) (domain : string) : string :=
  baseurl s ++ "/analyze?host=" ++ domain ++ "&all=done".

(** Lines 116 to 135. *)
Definition CheckAssessmentStatus (s : SSLClient) (domain : string)
  : IO (result Host.t) :=
  r <- http_Get (statusUrl s domain) ;;
  match r with
  | GetErr err => ret (Err ("failed to check assessment status: " ++ err))
  | GetOk resp =>
      match io_ReadAll (RespBody resp) with
      | Err err => ret (Err ("failed to read assessment status response: " ++ err))
      | Ok body =>
          match json_Unmarshal_Host body with
          | Err err =>
              ret (Err ("failed to parse assessment status response: " ++ err))
          | Ok host => ret (Ok host)
          end
      end
  end.

(** ** WaitForAssessment: the polling loop *)

(** The loop's local variables [i], [endpoint] and [flag]. *)
Record Locals : Type := {
  i : Z;
  endpoint : Z;
  flag : bool
}.

(** The test of line 164 (and, negated, of line 232). *)
Definition terminal (status : string) : bool :=
  ((status =? "READY") || (status =? "ERROR"))%string.

(** The text of lines 151 and 162, and the one of line 157. *)
Definition progressLine (host : Host.t) (e : Endpoint.t) : string :=
  "      " ++ Endpoint.IpAddress e ++ ":" ++ fmt_d (Host.Port host)
  ++ " - " ++ fmt_d (Endpoint.Progress e) ++ "%" ++ nl.

Definition headerLine (endpoint : Z) : string :=
  nl ++ "----- PROGRESS ON ENDPOINT " ++ fmt_d endpoint ++ " ----- " ++ nl.

(** Lines 149 to 161: the progress display of one iteration, on the
    snapshot [host], giving the updated locals.  The [||] of line 149
    evaluates its right operand, hence indexes, only when [flag] is set. *)
Definition trackProgress (host : Host.t) (c : Locals) : IO Locals :=
  let eps := Host.Endpoints host in
  cond <- (if negb (flag c) then ret true
           else e <- index eps (i c) ;; ret (Endpoint.Progress e =? 100)) ;;
  if cond : bool then
    e <- index eps (i c) ;;
    i' <- (if Endpoint.Progress e =? 100 then
             Printf (progressLine host e) ;;
             ret (if i c + 1 <? len eps then i c + 1 else i c)
           else ret (i c)) ;;
    endpoint' <- (if endpoint c <? len eps + 1 then
                    Printf (headerLine (endpoint c)) ;;
                    ret (endpoint c + 1)
                  else ret (endpoint c)) ;;
    ret {| i := i'; endpoint := endpoint'; flag := true |}
  else ret c.

(** One iteration of the [for] loop: [inl] carries the locals into the
    next iteration, [inr] is the value returned by the function. *)
Definition pollStep (s : SSLClient) (domain : string) (c : Locals)
  : IO (Locals + result Host.t) :=
  r <- CheckAssessmentStatus s domain ;;
  match r with
  | Err err => ret (inr (Err ("failed to check assessment status: " ++ err)))
  | Ok host =>
      c' <- trackProgress host c ;;
      e <- index (Host.Endpoints host) (i c') ;;
      Printf (progressLine host e) ;;
      if terminal (Host.Status host) then
        Println EmptyString ;;
        ret (inr (Ok host))
      else
        time_Sleep 10 ;;
        ret (inl c')
  end.

(** The unbounded [for] loop, unrolled at most [fuel] times.  Every
    iteration consumes one scripted answer, so the loop starves before the
    fuel of [WaitForAssessment] runs out. *)
Fixpoint pollLoop (fuel : nat) (s : SSLClient) (domain : string) (c : Locals)
  : IO (result Host.t) :=
  match fuel with
  | O => fun w => Starved w
  | S fuel' =>
      r <- pollStep s domain c ;;
      match r with
      | inl c' => pollLoop fuel' s domain c'
      | inr res => ret res
      end
  end.

(** Lines 137 to 170. *)
Definition WaitForAssessment (s : SSLClient) (domain : string)
  : IO (result Host.t) :=
  Println "Waiting for assessment to complete..." ;;
  fun w =>
    pollLoop (S (List.length (script w))) s domain
             {| i := 0; endpoint := 1; flag := false |} w.

(** ** Calendar time, as package [time] computes it *)

(** Year, month and day of the proleptic Gregorian calendar for a number
    of days since 1970-01-01. *)
Definition civil_from_days (z : Z) : Z * Z * Z :=
  let z := z + 719468 in
  let era := z / 146097 in
  let doe := z - era * 146097 in
  let yoe := (doe - doe / 1460 + doe / 36524 - doe / 146096) / 365 in
  let doy := doe - (365 * yoe + yoe / 4 - yoe / 100) in
  let mp := (5 * doy + 2) / 153 in
  let d := doy - (153 * mp + 2) / 5 + 1 in
  let m := if mp <? 10 then mp + 3 else mp - 9 in
  let y := yoe + era * 400 in
  (if m <=? 2 then y + 1 else y, m, d).

(** The inverse conversion: the number of days from 1970-01-01 to the
    day [d] of month [m] of year [y]. *)
Definition days_from_civil (y m d : Z) : Z :=
  let y' := if m <=? 2 then y - 1 else y in
  let era := y' / 400 in
  let yoe := y' - era * 400 in
  let mp := if m <=? 2 then m + 9 else m - 3 in
  let doy := (153 * mp + 2) / 5 + d - 1 in
  let doe := yoe * 365 + yoe / 4 - yoe / 100 + doy in
  era * 146097 + doe - 719468.

Fixpoint zeros (n : nat) : string :=
  match n with
  | O => EmptyString
  | S n' => "0" ++ zeros n'
  end.

(** [appendInt]: decimal, zero-padded to [width], sign first. *)
Definition appendInt (x : Z) (width : nat) : string :=
  let digits := fmt_d (Z.abs x) in
  let padded := zeros (width - String.length digits) ++ digits in
  if x <? 0 then "-" ++ padded else padded.

(** [Format("2006-01-02 15:04:05")] of the instant [sec] seconds after the
    epoch, shifted by [offset] seconds east of UTC. *)
Definition formatAt (offset sec : Z) : string :=
  let t := sec + offset in
  let '(y, m, d) := civil_from_days (t / 86400) in
  let r := t mod 86400 in
  appendInt y 4 ++ "-" ++ appendInt m 2 ++ "-" ++ appendInt d 2 ++ " "
  ++ appendInt (r / 3600) 2 ++ ":" ++ appendInt (r mod 3600 / 60) 2 ++ ":"
  ++ appendInt (r mod 60) 2.

(** [time.Unix(sec, 0).Format(...)]: in the local zone of the process. *)
Definition time_Unix_Format (sec : Z) : IO string :=
  fun w => Returned (formatAt (zone w sec) sec) w.

(** ** displayResults *)

(** [for i, x := range l { body }]. *)
Fixpoint rangeFrom {A} (k : Z) (l : list A) (body : Z -> A -> IO unit)
  : IO unit :=
  match l with
  | [] => ret tt
  | a :: l' => body k a ;; rangeFrom (k + 1) l' body
  end.

Definition range {A} (l : list A) (body : Z -> A -> IO unit) : IO unit :=
  rangeFrom 0 l body.

(** The body of the loop of lines 182 to 189. *)
Definition printEndpoint (i : Z) (endpoint : Endpoint.t) : IO unit :=
  Printf ("Endpoint " ++ fmt_d (i + 1) ++ ":" ++ nl) ;;
  Printf ("  IP Address: " ++ Endpoint.IpAddress endpoint ++ nl) ;;
  Printf ("  Grade: " ++ Endpoint.Grade endpoint ++ nl) ;;
  Printf ("  Status Message: " ++ Endpoint.StatusMessage endpoint ++ nl) ;;
  Printf ("  Has Warnings: " ++ fmt_t (Endpoint.HasWarnings endpoint) ++ nl) ;;
  Println EmptyString.

(** Lines 172 to 194.  The [switch] has the cases READY and ERROR and no
    default. *)
Definition displayResults (host : Host.t) : IO unit :=
  Printf ("Assessment Results:" ++ nl) ;;
  Printf ("Domain: " ++ Host.Host host ++ nl) ;;
  Printf ("Status: " ++ Host.Status host ++ nl) ;;
  if (Host.Status host =? "READY")%string then
    t <- time_Unix_Format (Z.quot (Host.TestTime host) 1000) ;;
    Printf ("Test completed: " ++ t ++ nl) ;;
    range (Host.Endpoints host) printEndpoint
  else if (Host.Status host =? "ERROR")%string then
    Printf ("Assessment failed: " ++ Host.StatusMessage host ++ nl)
  else ret tt.

(** ** main *)

(** The values of the three command-line flags after [flag.Parse]. *)
Record Flags : Type := {
  domain : string;
  publish : bool;
  help : bool
}.

(** Lines 196 to 242, after [flag.Parse]. *)
Definition main (args : Flags) : IO unit :=
  (if help args || (domain args =? EmptyString)%string then
     Println "SSL Labs API Checker" ;;
     Println "Usage:" ;;
     flag_PrintDefaults ;;
     os_Exit 0
   else ret tt) ;;
  let sslClient := NewSSLClient in
  r <- CheckApiStatus sslClient ;;
  info <- match r with
          | Err err => Printf ("Error: " ++ err ++ nl) ;; os_Exit 1
          | Ok info => ret info
          end ;;
  (if Info.CurrentAssessments info >=? Info.MaxAssessments info then
     Println "Maximum number of concurrent assessments reached. Please try again later." ;;
     os_Exit 1
   else ret tt) ;;
  Printf ("Checking SSL/TLS for domain: " ++ domain args ++ nl) ;;
  Println "Starting Assessment ...." ;;
  r <- StartAssessment sslClient (domain args) (publish args) ;;
  host <- match r with
          | Err err => Printf ("Error starting assessment: " ++ err ++ nl) ;; os_Exit 1
          | Ok host => ret host
          end ;;
  Printf ("Assessment started for " ++ Host.Host host ++ nl) ;;
  host <- (if negb (Host.Status host =? "READY")%string
              && negb (Host.Status host =? "ERROR")%string then
             r <- WaitForAssessment sslClient (domain args) ;;
             match r with
             | Err err =>
                 Printf ("Error waiting for assessment: " ++ err ++ nl) ;; os_Exit 1
             | Ok host => ret host
             end
           else ret host) ;;
  displayResults host.

(** The status with which the process ends: 0 when [main] returns, the
    argument of [os.Exit], 2 after a runtime panic; none while it waits. *)
Definition exitCode {A} (o : Outcome A) : option Z :=
  match o with
  | Returned _ _ => Some 0
  | Exited code _ => Some code
  | Panicked _ _ => Some 2
  | Starved _ => None
  end.

Definition finalWorld {A} (o : Outcome A) : World :=
  match o with
  | Returned _ w => w
  | Exited _ w => w
  | Panicked _ w => w
  | Starved w => w
  end.

(** ** Observations on traces *)

Definition requests (tr : list Event) : list string :=
  flat_map (fun e => match e with HttpGet url => [url] | _ => [] end) tr.

Definition output (tr : list Event) : list string :=
  flat_map (fun e => match e with Stdout text => [text] | _ => [] end) tr.

(** A computation fails loudly when it panics or exits with a non-zero
    status. *)
Definition failsLoudly {A} (o : Outcome A) : Prop :=
  match o with
  | Panicked _ _ => True
  | Exited code _ => code <> 0
  | Returned _ _ => False
  | Starved _ => False
  end.

(** The world after printing [lines]. *)
Definition prints (lines : list string) (w : World) : World :=
  {| script := script w;
     trace := (trace w ++ map Stdout lines)%list;
     zone := zone w |}.

(** ** Stages of a run *)

(** The world after the two lines printed before the start request. *)
Definition announced (args : Flags) (w : World) : World :=
  prints [ "Checking SSL/TLS for domain: " ++ domain args ++ nl;
           "Starting Assessment ...." ++ nl ] w.

(** The world after the line printed once the start request returned. *)
Definition started (host : Host.t) (w : World) : World :=
  prints [ "Assessment started for " ++ Host.Host host ++ nl ] w.

(** What [main] does with the result of [WaitForAssessment]. *)
Definition afterWait (r : result Host.t) : IO unit :=
  match r with
  | Err err => Printf ("Error waiting for assessment: " ++ err ++ nl) ;; os_Exit 1
  | Ok host => displayResults host
  end.

(** ** The query component of a URL *)

(** [occurs c s]: the character [c] appears in [s]. *)
Fixpoint occurs (c : ascii) (s : string) : bool :=
  match s with
  | EmptyString => false
  | String a s' => Ascii.eqb a c || occurs c s'
  end.

(** [cut sep s]: the text before the first [sep], and the text after it
    when there is one. *)
Fixpoint cut (sep : ascii) (s : string) : string * option string :=
  match s with
  | EmptyString => (EmptyString, None)
  | String a s' =>
      if Ascii.eqb a sep then (EmptyString, Some s')
      else let '(before, after) := cut sep s' in (String a before, after)
  end.

Fixpoint split (sep : ascii) (s : string) : list string :=
  match s with
  | EmptyString => [EmptyString]
  | String a s' =>
      if Ascii.eqb a sep then EmptyString :: split sep s'
      else match split sep s' with
           | [] => [String a EmptyString]
           | x :: xs => String a x :: xs
           end
  end.

(** The query of a URL: what follows the first [?], the fragment (from
    the first [#] on) removed beforehand. *)
Definition rawQuery (url : string) : string :=
  match snd (cut "?" (fst (cut "#" url))) with
  | Some q => q
  | None => EmptyString
  end.

Definition keyValue (segment : string) : string * string :=
  let '(k, v) := cut "=" segment in
  (k, match v with Some v => v | None => EmptyString end).

(** The parameters of the query, in order: the [&]-separated segments
    that are not empty, each divided at its first [=]. *)
Definition queryParams (url : string) : list (string * string) :=
  map keyValue
      (filter (fun seg => negb (seg =? EmptyString)%string) (split "&" (rawQuery url))).

(** ** The query as a URL reader decodes it *)

(** The reading of a query by Go's [net/url] ([ParseQuery]): the
    segments between [&] that are not empty; a segment holding a [;] is
    refused; key and value, divided at the first [=], are unescaped, [+]
    standing for a space and [%XY] for the byte with hexadecimal code
    [XY]; a segment whose escapes are malformed is refused. *)

Definition hexValue (c : ascii) : option nat :=
  let n := nat_of_ascii c in
  if Nat.leb 48 n && Nat.leb n 57 then Some (n - 48)%nat
  else if Nat.leb 65 n && Nat.leb n 70 then Some (n - 55)%nat
  else if Nat.leb 97 n && Nat.leb n 102 then Some (n - 87)%nat
  else None.

Fixpoint unescape (s : string) : option string :=
  match s with
  | EmptyString => Some EmptyString
  | String c rest =>
      if Ascii.eqb c "%" then
        match rest with
        | String a (String b rest') =>
            match hexValue a, hexValue b with
            | Some x, Some y =>
                option_map (String (ascii_of_nat (16 * x + y)))
                           (unescape rest')
            | _, _ => None
            end
        | _ => None
        end
      else if Ascii.eqb c "+" then option_map (String " ") (unescape rest)
      else option_map (String c) (unescape rest)
  end.

Definition segments (url : string) : list string :=
  filter (fun seg => negb (seg =? EmptyString)%string) (split "&" (rawQuery url)).

Definition decodeSegment (segment : string) : list (string * string) :=
  if occurs ";" segment then []
  else
    match unescape (fst (keyValue segment)), unescape (snd (keyValue segment)) with
    | Some k, Some v => [ (k, v) ]
    | _, _ => []
    end.

(** The parameters of the query as decoded, in order. *)
Definition urlValues (url : string) : list (string * string) :=
  flat_map decodeSegment (segments url).

(** The characters that URL escaping leaves as they are: letters, digits,
    [-], [.], [_] and [~].  Host names are made of them. *)
Definition unreserved (c : ascii) : bool :=
  let n := nat_of_ascii c in
  (Nat.leb 48 n && Nat.leb n 57)
  || (Nat.leb 65 n && Nat.leb n 90)
  || (Nat.leb 97 n && Nat.leb n 122)
  || Nat.eqb n 45 || Nat.eqb n 46 || Nat.eqb n 95 || Nat.eqb n 126.

Fixpoint allUnreserved (s : string) : bool :=
  match s with
  | EmptyString => true
  | String c rest => unreserved c && allUnreserved rest
  end.

(** ** What the READY branch of displayResults prints *)

Definition endpointBlock (number : Z) (e : Endpoint.t) : list string :=
  [ "Endpoint " ++ fmt_d number ++ ":" ++ nl;
    "  IP Address: " ++ Endpoint.IpAddress e ++ nl;
    "  Grade: " ++ Endpoint.Grade e ++ nl;
    "  Status Message: " ++ Endpoint.StatusMessage e ++ nl;
    "  Has Warnings: " ++ fmt_t (Endpoint.HasWarnings e) ++ nl;
    nl ].

(** The blocks of the endpoints of [l], numbered from [first] on. *)
Fixpoint endpointBlocks (first : Z) (l : list Endpoint.t) : list string :=
  match l with
  | [] => []
  | e :: l' => (endpointBlock first e ++ endpointBlocks (first + 1) l')%list
  end.


(** ** Services that keep the cursor in range *)

(** The snapshot an answer decodes to, if it does. *)
Definition decoded (r : GetResult) : option Host.t :=
  match r with
  | GetErr _ => None
  | GetOk resp =>
      match io_ReadAll (RespBody resp) with
      | Err _ => None
      | Ok doc =>
          match json_Unmarshal_Host doc with
          | Err _ => None
          | Ok host => Some host
          end
      end
  end.

(** [pendingRun n pre m]: the answers of [pre] all decode to snapshots
    that are not terminal; the first has at least [n] endpoints, each
    one at least as many as the one before, and the last one [m]
    ([m = n] when [pre] is empty). *)
Fixpoint pendingRun (n : Z) (pre : list GetResult) (m : Z) : Prop :=
  match pre with
  | [] => m = n
  | r :: pre' =>
      exists host,
        decoded r = Some host
        /\ terminal (Host.Status host) = false
        /\ n <= len (Host.Endpoints host)
        /\ pendingRun (len (Host.Endpoints host)) pre' m
  end.

(** ** More observations *)

Definition sleeps (tr : list Event) : list Z :=
  flat_map (fun e => match e with Sleep seconds => [seconds] | _ => [] end) tr.

(** [confined P m]: whatever its outcome, [m] only appends events to the
    trace, and every event it appends satisfies [P]. *)
Definition confined (P : Event -> Prop) {A} (m : IO A) : Prop :=
  forall w : World,
    exists t : list Event,
      trace (finalWorld (m w)) = (trace w ++ t)%list /\ Forall P t.

Definition isStdout (e : Event) : Prop :=
  match e with
  | Stdout _ => True
  | _ => False
  end.

(** The events of the polling loop for the domain [d]: printing, the
    status request, the pause of ten seconds. *)
Definition pollEvent (s : SSLClient) (d : string) (e : Event) : Prop :=
  match e with
  | Stdout _ => True
  | HttpGet url => url = statusUrl s d
  | Sleep seconds => seconds = 10
  | Usage => False
  end.

(** The events of a whole run. *)
Definition runEvent (args : Flags) (e : Event) : Prop :=
  match e with
  | Stdout _ => True
  | Usage => True
  | HttpGet url =>
      url = baseurl NewSSLClient ++ "/info"
      \/ url = startUrl NewSSLClient (domain args) (publish args)
      \/ url = statusUrl NewSSLClient (domain args)
  | Sleep seconds => seconds = 10
  end.

(** ** Sample values *)

Definition zeroHost : Host.t :=
  Host.mk EmptyString 0 EmptyString false EmptyString EmptyString 0 0 EmptyString EmptyString [].

Definition sampleEndpoint (ip : string) (progress : Z) : Endpoint.t :=
  Endpoint.mk ip EmptyString "Ready" EmptyString "A" "A" false progress 0 0.

Definition sampleHost (status : string) (eps : list Endpoint.t) : Host.t :=
  Host.mk "example.com" 443 "http" false status "Unable to resolve domain name"
          1700000000000 1700000000000 "2.3.0" "2009q" eps.

Definition sampleInfo (max current : Z) : Info.t :=
  Info.mk "2.3.0" "2009q" max current 1000 [].

(** A response whose body decodes to [host]. *)
Definition hostDocument (host : Host.t) : Document :=
  {| asInfo := Err "json: cannot unmarshal"; asHost := Ok host |}.

Definition hostReply (code : Z) (status : string) (host : Host.t) : Response :=
  {| StatusCode := code; Status := status; RespBody := Readable (hostDocument host) |}.

Definition hostResponse (code : Z) (status : string) (host : Host.t) : GetResult :=
  GetOk (hostReply code status host).

Definition infoDocument (info : Info.t) : Document :=
  {| asInfo := Ok info; asHost := Ok zeroHost |}.

Definition infoReply (info : Info.t) : Response :=
  {| StatusCode := 200; Status := "200 OK"; RespBody := Readable (infoDocument info) |}.

Definition infoResponse (info : Info.t) : GetResult := GetOk (infoReply info).

(** A fresh process in the UTC zone, the service answering with [s]. *)
Definition initial (s : list GetResult) : World :=
  {| script := s; trace := []; zone := fun _ => 0 |}.

(** * Properties *)

(** ** The monad *)

Lemma bind_Returned {A B} (m : IO A) (k : A -> IO B) (w w' : World) (a : A) :
  m w = Returned a w' -> bind m k w = k a w'.
Proof. intros H. unfold bind. now rewrite H. Qed.

Lemma bind_Panicked {A B} (m : IO A) (k : A -> IO B) (w w' : World) (p : Panic) :
  m w = Panicked p w' -> bind m k w = Panicked p w'.
Proof. intros H. unfold bind. now rewrite H. Qed.

Lemma bind_Exited {A B} (m : IO A) (k : A -> IO B) (w w' : World) (c : Z) :
  m w = Exited c w' -> bind m k w = Exited c w'.
Proof. intros H. unfold bind. now rewrite H. Qed.

Lemma bind_Starved {A B} (m : IO A) (k : A -> IO B) (w w' : World) :
  m w = Starved w' -> bind m k w = Starved w'.
Proof. intros H. unfold bind. now rewrite H. Qed.

Lemma bind_Printf {B} (text : string) (k : unit -> IO B) (w : World) :
  bind (Printf text) k w = k tt (emit (Stdout text) w).
Proof. reflexivity. Qed.

Lemma world_eta (w : World) :
  {| script := script w; trace := trace w; zone := zone w |} = w.
Proof. now destruct w. Qed.

Lemma prints_nil (w : World) : prints [] w = w.
Proof. unfold prints. cbn. rewrite app_nil_r. apply world_eta. Qed.

Lemma prints_cons (text : string) (lines : list string) (w : World) :
  prints (text :: lines) w = prints lines (emit (Stdout text) w).
Proof. unfold prints, emit. cbn. now rewrite <- app_assoc. Qed.

Lemma prints_app (l1 l2 : list string) (w : World) :
  prints (l1 ++ l2)%list w = prints l2 (prints l1 w).
Proof.
  revert w. induction l1 as [|x l1 IH]; intros w.
  - now rewrite prints_nil.
  - cbn [app]. now rewrite !prints_cons, IH.
Qed.

(** ** The transport operations *)

Lemma http_Get_answered (url : string) (w : World) (r : GetResult)
      (rest : list GetResult) :
  script w = r :: rest ->
  http_Get url w = Returned r (answered rest (emit (HttpGet url) w)).
Proof. intros H. unfold http_Get. now rewrite H. Qed.

Lemma http_Get_starved (url : string) (w : World) :
  script w = [] -> http_Get url w = Starved (emit (HttpGet url) w).
Proof. intros H. unfold http_Get. now rewrite H. Qed.

Lemma append_assoc (a b c : string) : (a ++ b) ++ c = a ++ b ++ c.
Proof. induction a as [|x a IH]; cbn; [reflexivity | now rewrite IH]. Qed.

Lemma append_nil_r (a : string) : a ++ EmptyString = a.
Proof. induction a as [|x a IH]; cbn; [reflexivity | now rewrite IH]. Qed.

Lemma startUrl_eq (s : SSLClient) (d : string) (publish : bool) :
  startUrl s d publish
  = baseurl s ++ "/analyze?host=" ++ d ++ "&all=done&startNew=on"
    ++ (if publish then "&publish=on" else EmptyString).
Proof.
  unfold startUrl. destruct publish.
  - now rewrite !append_assoc.
  - now rewrite append_nil_r.
Qed.

(** The request of [StartAssessment], whatever the service answers. *)
Lemma StartAssessment_trace (s : SSLClient) (d : string) (publish : bool)
      (w : World) :
  trace (finalWorld (StartAssessment s d publish w))
  = (trace w ++ [HttpGet (startUrl s d publish)])%list.
Proof.
  unfold StartAssessment, bind, http_Get.
  destruct (script w) as [|r rest]; [reflexivity|].
  destruct r as [err|resp]; [reflexivity|].
  destruct (io_ReadAll (RespBody resp)) as [doc|err]; [|reflexivity].
  destruct (json_Unmarshal_Host doc); reflexivity.
Qed.

Lemma CheckAssessmentStatus_trace (s : SSLClient) (d : string) (w : World) :
  trace (finalWorld (CheckAssessmentStatus s d w))
  = (trace w ++ [HttpGet (statusUrl s d)])%list.
Proof.
  unfold CheckAssessmentStatus, bind, http_Get.
  destruct (script w) as [|r rest]; [reflexivity|].
  destruct r as [err|resp]; [reflexivity|].
  destruct (io_ReadAll (RespBody resp)) as [doc|err]; [|reflexivity].
  destruct (json_Unmarshal_Host doc); reflexivity.
Qed.

Lemma StartAssessment_decoded (s : SSLClient) (d : string) (publish : bool)
      (w : World) (resp : Response) (rest : list GetResult)
      (doc : Document) (host : Host.t) :
  script w = GetOk resp :: rest ->
  RespBody resp = Readable doc ->
  asHost doc = Ok host ->
  StartAssessment s d publish w
  = Returned (Ok host) (answered rest (emit (HttpGet (startUrl s d publish)) w)).
Proof.
  intros Hs Hb Hd. unfold StartAssessment.
  rewrite (bind_Returned _ _ _ _ _ (http_Get_answered _ _ _ _ Hs)).
  rewrite Hb. cbn. unfold json_Unmarshal_Host. now rewrite Hd.
Qed.

Lemma CheckAssessmentStatus_decoded (s : SSLClient) (d : string)
      (w : World) (resp : Response) (rest : list GetResult)
      (doc : Document) (host : Host.t) :
  script w = GetOk resp :: rest ->
  RespBody resp = Readable doc ->
  asHost doc = Ok host ->
  CheckAssessmentStatus s d w
  = Returned (Ok host) (answered rest (emit (HttpGet (statusUrl s d)) w)).
Proof.
  intros Hs Hb Hd. unfold CheckAssessmentStatus.
  rewrite (bind_Returned _ _ _ _ _ (http_Get_answered _ _ _ _ Hs)).
  rewrite Hb. cbn. unfold json_Unmarshal_Host. now rewrite Hd.
Qed.

(** C2 (as the code has it): CheckApiStatus turns a status other than 200
    into an error carrying the status text, whereas StartAssessment and
    CheckAssessmentStatus never look at the status: with a body that
    decodes they return the decoded record for any status code. *)
Theorem status_checked_only_by_CheckApiStatus
        (s : SSLClient) (w : World) (resp : Response) (rest : list GetResult) :
  script w = GetOk resp :: rest ->
  StatusCode resp <> http_StatusOK ->
  CheckApiStatus s w
  = Returned (Err ("API returned non-OK status: " ++ Status resp))
             (answered rest (emit (HttpGet (baseurl s ++ "/info")) w))
  /\ (forall (d : string) (publish : bool) (doc : Document) (host : Host.t),
         RespBody resp = Readable doc ->
         asHost doc = Ok host ->
         StartAssessment s d publish w
         = Returned (Ok host)
                    (answered rest (emit (HttpGet (startUrl s d publish)) w))
         /\ CheckAssessmentStatus s d w
            = Returned (Ok host)
                       (answered rest (emit (HttpGet (statusUrl s d)) w))).
Proof.
  intros Hs Hc. split.
  - unfold CheckApiStatus.
    rewrite (bind_Returned _ _ _ _ _ (http_Get_answered _ _ _ _ Hs)).
    apply Z.eqb_neq in Hc. now rewrite Hc.
  - intros d publish doc host Hb Hd. split.
    + now apply StartAssessment_decoded with (resp := resp) (doc := doc).
    + now apply CheckAssessmentStatus_decoded with (resp := resp) (doc := doc).
Qed.

Lemma status_checked_only_by_CheckApiStatus_witness :
  let w := initial [hostResponse 429 "429 Too Many Requests" zeroHost] in
  CheckApiStatus NewSSLClient w
  = Returned (Err "API returned non-OK status: 429 Too Many Requests")
             (answered [] (emit (HttpGet "https://api.ssllabs.com/api/v2/info") w))
  /\ StartAssessment NewSSLClient "example.com" false w
     = Returned (Ok zeroHost)
         (answered [] (emit (HttpGet (startUrl NewSSLClient "example.com" false)) w))
  /\ CheckAssessmentStatus NewSSLClient "example.com" w
     = Returned (Ok zeroHost)
         (answered [] (emit (HttpGet (statusUrl NewSSLClient "example.com")) w)).
Proof.
  intros w.
  destruct (status_checked_only_by_CheckApiStatus NewSSLClient w
              (hostReply 429 "429 Too Many Requests" zeroHost) [])
    as [H1 H2].
  - reflexivity.
  - cbn. unfold http_StatusOK. lia.
  - split; [exact H1|].
    apply (H2 "example.com" false (hostDocument zeroHost) zeroHost); reflexivity.
Defined.

(** ** Slice access *)

Lemma index_out_of_range {A} (l : list A) (k : Z) (w : World) :
  ~ (0 <= k < len l) ->
  index l k w = Panicked (IndexOutOfRange k (len l)) w.
Proof.
  intros H. unfold index.
  destruct ((0 <=? k) && (k <? len l)) eqn:E; [|reflexivity].
  apply andb_true_iff in E. destruct E as [E1 E2].
  apply Z.leb_le in E1. apply Z.ltb_lt in E2. lia.
Qed.

Lemma index_in_range {A} (l : list A) (k : Z) (w : World) :
  0 <= k < len l ->
  exists a, nth_error l (Z.to_nat k) = Some a /\ index l k w = Returned a w.
Proof.
  intros H. unfold index.
  assert (E : (0 <=? k) && (k <? len l) = true).
  { apply andb_true_iff. split; [apply Z.leb_le | apply Z.ltb_lt]; lia. }
  rewrite E.
  destruct (nth_error l (Z.to_nat k)) as [a|] eqn:N.
  - exists a. now split.
  - apply nth_error_None in N. unfold len in H. lia.
Qed.

(** ** The progress display *)

(** With the cursor outside the snapshot the display panics, whatever the
    flag: line 149 indexes when the flag is set, line 150 when it is not. *)
Lemma trackProgress_out_of_range (host : Host.t) (c : Locals) (w : World) :
  ~ (0 <= i c < len (Host.Endpoints host)) ->
  trackProgress host c w
  = Panicked (IndexOutOfRange (i c) (len (Host.Endpoints host))) w.
Proof.
  intros H. unfold trackProgress.
  destruct (flag c); cbn [negb].
  - apply bind_Panicked. apply bind_Panicked. now apply index_out_of_range.
  - rewrite (bind_Returned _ _ w w true eq_refl).
    apply bind_Panicked. now apply index_out_of_range.
Qed.

(** With the cursor inside the snapshot the display returns, with the
    cursor still inside, the flag set, nothing but printing done. *)
Lemma trackProgress_in_range (host : Host.t) (c : Locals) (w : World) :
  0 <= i c < len (Host.Endpoints host) ->
  exists c' lines,
    trackProgress host c w = Returned c' (prints lines w)
    /\ 0 <= i c' < len (Host.Endpoints host)
    /\ flag c' = true.
Proof.
  intros H. unfold trackProgress.
  destruct (index_in_range (Host.Endpoints host) (i c) w H) as [e [_ He]].
  assert (Hbody : exists c' lines,
    (e0 <- index (Host.Endpoints host) (i c) ;;
     i' <- (if Endpoint.Progress e0 =? 100 then
              Printf (progressLine host e0) ;;
              ret (if i c + 1 <? len (Host.Endpoints host) then i c + 1 else i c)
            else ret (i c)) ;;
     endpoint' <- (if endpoint c <? len (Host.Endpoints host) + 1 then
                     Printf (headerLine (endpoint c)) ;;
                     ret (endpoint c + 1)
                   else ret (endpoint c)) ;;
     ret {| i := i'; endpoint := endpoint'; flag := true |}) w
    = Returned c' (prints lines w)
    /\ 0 <= i c' < len (Host.Endpoints host) /\ flag c' = true).
  { rewrite (bind_Returned _ _ _ _ _ He).
    destruct (Endpoint.Progress e =? 100);
      destruct (endpoint c <? len (Host.Endpoints host) + 1);
      destruct (i c + 1 <? len (Host.Endpoints host)) eqn:E;
      try apply Z.ltb_lt in E;
      eexists; (match goal with
                | |- context [headerLine] =>
                    match goal with
                    | |- context [progressLine] =>
                        exists [progressLine host e; headerLine (endpoint c)]
                    | _ => exists [headerLine (endpoint c)]
                    end
                | |- context [progressLine] => exists [progressLine host e]
                | _ => exists []
                end);
      (split; [cbv [bind ret Printf]; rewrite ?prints_cons, ?prints_nil; reflexivity
              | cbn; split; [lia | reflexivity]]). }
  destruct (flag c) eqn:F; cbn [negb].
  - rewrite (bind_Returned _ _ w w (Endpoint.Progress e =? 100)).
    2:{ now rewrite (bind_Returned _ _ _ _ _ He). }
    destruct (Endpoint.Progress e =? 100) eqn:P.
    + exact Hbody.
    + exists c, []. rewrite prints_nil. repeat split; try lia; assumption.
  - rewrite (bind_Returned _ _ w w true eq_refl). exact Hbody.
Qed.

(** ** One iteration of the loop *)

(** An iteration that asks for another one has consumed one answer. *)
Lemma pollStep_continues (s : SSLClient) (d : string) (c c' : Locals)
      (w w' : World) :
  pollStep s d c w = Returned (inl c') w' ->
  exists r, script w = r :: script w'.
Proof.
  unfold pollStep, CheckAssessmentStatus.
  unfold bind at 1 2. unfold http_Get.
  destruct (script w) as [|r rest] eqn:Hs; [discriminate|].
  intros H. exists r. f_equal.
  destruct r as [err|resp]; [discriminate|].
  destruct (io_ReadAll (RespBody resp)) as [doc|err] eqn:Hb; [|discriminate].
  destruct (json_Unmarshal_Host doc) as [host|err] eqn:Hd; [|discriminate].
  cbv [ret] in H.
  set (w1 := answered rest (emit (HttpGet (statusUrl s d)) w)) in *.
  destruct (Z_lt_ge_dec (i c) 0) as [Hneg|Hpos].
  { rewrite (bind_Panicked _ _ _ _ _
               (trackProgress_out_of_range host c w1 ltac:(lia))) in H.
    discriminate. }
  destruct (Z_lt_ge_dec (i c) (len (Host.Endpoints host))) as [Hlt|Hge].
  2:{ rewrite (bind_Panicked _ _ _ _ _
                 (trackProgress_out_of_range host c w1 ltac:(lia))) in H.
      discriminate. }
  destruct (trackProgress_in_range host c w1 ltac:(lia))
    as [c1 [lines [Ht [Hi' Hf]]]].
  rewrite (bind_Returned _ _ _ _ _ Ht) in H.
  destruct (index_in_range (Host.Endpoints host) (i c1) (prints lines w1) Hi')
    as [e [_ He]].
  rewrite (bind_Returned _ _ _ _ _ He) in H.
  rewrite bind_Printf in H.
  destruct (terminal (Host.Status host)).
  - discriminate.
  - cbv [bind time_Sleep ret] in H. injection H as _ <-. reflexivity.
Qed.

(** ** The loop *)

(** The fuel of [WaitForAssessment] is enough: any larger amount gives the
    same outcome, so the loop never stops for lack of fuel. *)
Lemma pollLoop_fuel (s : SSLClient) (d : string) (fuel1 fuel2 : nat) :
  forall (c : Locals) (w : World),
    (List.length (script w) < fuel1)%nat ->
    (List.length (script w) < fuel2)%nat ->
    pollLoop fuel1 s d c w = pollLoop fuel2 s d c w.
Proof.
  revert fuel2. induction fuel1 as [|f1 IH]; intros fuel2 c w H1 H2.
  - inversion H1.
  - destruct fuel2 as [|f2]; [inversion H2|].
    cbn [pollLoop]. unfold bind.
    destruct (pollStep s d c w) as [r w'| | |] eqn:E; try reflexivity.
    destruct r as [c'|res]; [|reflexivity].
    destruct (pollStep_continues s d c c' w w' E) as [r Hr].
    rewrite Hr in H1, H2. cbn [List.length] in H1, H2.
    apply IH; lia.
Qed.

Lemma WaitForAssessment_unfold (s : SSLClient) (d : string) (w : World) :
  WaitForAssessment s d w
  = pollLoop (S (List.length (script w))) s d
             {| i := 0; endpoint := 1; flag := false |}
             (emit (Stdout ("Waiting for assessment to complete..." ++ nl)) w).
Proof. reflexivity. Qed.

(** ** The loop on one snapshot *)

Section Snapshot.

(** The next answer of the service, to a status request for [d], is a
    response whose body decodes to the snapshot [host]; [rest] follows. *)
Variables (s : SSLClient) (d : string).
Variables (resp : Response) (rest : list GetResult).
Variables (doc : Document) (host : Host.t).
Hypothesis Hbody : RespBody resp = Readable doc.
Hypothesis Hhost : asHost doc = Ok host.

Local Abbreviation polled w := (answered rest (emit (HttpGet (statusUrl s d)) w)).
Local Abbreviation eps := (Host.Endpoints host).

Lemma pollStep_out_of_range (c : Locals) (w : World) :
  script w = GetOk resp :: rest ->
  ~ (0 <= i c < len eps) ->
  pollStep s d c w = Panicked (IndexOutOfRange (i c) (len eps)) (polled w).
Proof.
  intros Hs Hi. unfold pollStep.
  rewrite (bind_Returned _ _ _ _ _
             (CheckAssessmentStatus_decoded s d w resp rest doc host
                Hs Hbody Hhost)).
  apply bind_Panicked. now apply trackProgress_out_of_range.
Qed.

Lemma pollStep_in_range (c : Locals) (w : World) :
  script w = GetOk resp :: rest ->
  0 <= i c < len eps ->
  exists c' lines,
    0 <= i c' < len eps
    /\ flag c' = true
    /\ pollStep s d c w
       = if terminal (Host.Status host)
         then Returned (inr (Ok host)) (emit (Stdout nl) (prints lines (polled w)))
         else Returned (inl c') (emit (Sleep 10) (prints lines (polled w))).
Proof.
  intros Hs Hi. unfold pollStep.
  rewrite (bind_Returned _ _ _ _ _
             (CheckAssessmentStatus_decoded s d w resp rest doc host
                Hs Hbody Hhost)).
  set (w1 := polled w).
  destruct (trackProgress_in_range host c w1 Hi) as [c' [lines [Ht [Hi' Hf]]]].
  rewrite (bind_Returned _ _ _ _ _ Ht).
  destruct (index_in_range eps (i c') (prints lines w1) Hi') as [e [_ He]].
  rewrite (bind_Returned _ _ _ _ _ He).
  exists c', (lines ++ [progressLine host e])%list.
  split; [exact Hi'|]. split; [exact Hf|].
  rewrite bind_Printf, prints_app, prints_cons, prints_nil.
  destruct (terminal (Host.Status host)); reflexivity.
Qed.

Lemma pollLoop_terminal_in_range (fuel : nat) (c : Locals) (w : World) :
  script w = GetOk resp :: rest ->
  terminal (Host.Status host) = true ->
  0 <= i c < len eps ->
  exists lines,
    pollLoop (S fuel) s d c w = Returned (Ok host) (prints lines (polled w)).
Proof.
  intros Hs Ht Hi.
  destruct (pollStep_in_range c w Hs Hi) as [c' [lines [_ [_ Hstep]]]].
  rewrite Ht in Hstep.
  exists (lines ++ [nl])%list.
  cbn [pollLoop]. rewrite (bind_Returned _ _ _ _ _ Hstep).
  now rewrite prints_app, prints_cons, prints_nil.
Qed.

Lemma pollLoop_out_of_range (fuel : nat) (c : Locals) (w : World) :
  script w = GetOk resp :: rest ->
  ~ (0 <= i c < len eps) ->
  pollLoop (S fuel) s d c w
  = Panicked (IndexOutOfRange (i c) (len eps)) (polled w).
Proof.
  intros Hs Hi. cbn [pollLoop].
  apply bind_Panicked. now apply pollStep_out_of_range.
Qed.

(** C1 (as the code has it): on a snapshot without endpoints the progress
    display does not report "no progress" and go on: whatever the loop's
    locals, the iteration panics on the access [host.Endpoints[i]] with an
    index out of range, and so does WaitForAssessment when its first poll
    brings such a snapshot. *)
Theorem progress_display_panics_without_endpoints (w : World) :
  script w = GetOk resp :: rest ->
  eps = [] ->
  (forall c : Locals,
      pollStep s d c w = Panicked (IndexOutOfRange (i c) 0) (polled w))
  /\ WaitForAssessment s d w
     = Panicked (IndexOutOfRange 0 0)
         (polled (emit (Stdout ("Waiting for assessment to complete..." ++ nl)) w)).
Proof.
  intros Hs He.
  assert (Hout : forall c : Locals, ~ (0 <= i c < len eps)).
  { intros c. rewrite He. cbn. lia. }
  split.
  - intros c. rewrite (pollStep_out_of_range c w Hs (Hout c)).
    now rewrite He.
  - rewrite WaitForAssessment_unfold.
    rewrite (pollLoop_out_of_range _ _ (emit _ w) Hs (Hout _)).
    now rewrite He.
Qed.

(** C4 (as the code has it): a snapshot with status READY or ERROR is not
    returned when the cursor [i] lies outside its endpoints: the loop
    panics in the progress display, before the status test of line 164.
    In particular WaitForAssessment does not return a terminal snapshot
    without endpoints that its first poll brings. *)
Theorem terminal_snapshot_lost_when_cursor_out_of_range (w : World) :
  script w = GetOk resp :: rest ->
  terminal (Host.Status host) = true ->
  (forall (fuel : nat) (c : Locals),
      ~ (0 <= i c < len eps) ->
      pollLoop (S fuel) s d c w
      = Panicked (IndexOutOfRange (i c) (len eps)) (polled w))
  /\ (eps = [] ->
      forall w' : World, WaitForAssessment s d w <> Returned (Ok host) w').
Proof.
  intros Hs _. split.
  - intros fuel c Hc. now apply pollLoop_out_of_range.
  - intros He w'. rewrite WaitForAssessment_unfold.
    rewrite (pollLoop_out_of_range _ _ (emit _ w) Hs).
    + discriminate.
    + rewrite He. cbn. lia.
Qed.

End Snapshot.

Lemma progress_display_panics_without_endpoints_witness :
  let w := initial [hostResponse 200 "200 OK" (sampleHost "DNS" [])] in
  (forall c : Locals,
      pollStep NewSSLClient "example.com" c w
      = Panicked (IndexOutOfRange (i c) 0)
                 (answered [] (emit (HttpGet (statusUrl NewSSLClient "example.com")) w)))
  /\ WaitForAssessment NewSSLClient "example.com" w
     = Panicked (IndexOutOfRange 0 0)
         (answered []
            (emit (HttpGet (statusUrl NewSSLClient "example.com"))
               (emit (Stdout ("Waiting for assessment to complete..." ++ nl)) w))).
Proof.
  intros w.
  apply (progress_display_panics_without_endpoints
           NewSSLClient "example.com"
           (hostReply 200 "200 OK" (sampleHost "DNS" [])) []
           (hostDocument (sampleHost "DNS" [])) (sampleHost "DNS" [])
           eq_refl eq_refl w);
    reflexivity.
Defined.

Lemma terminal_snapshot_lost_when_cursor_out_of_range_witness :
  let host := sampleHost "ERROR" [] in
  let w := initial [hostResponse 200 "200 OK" host] in
  (forall (fuel : nat) (c : Locals),
      ~ (0 <= i c < len (Host.Endpoints host)) ->
      pollLoop (S fuel) NewSSLClient "example.com" c w
      = Panicked (IndexOutOfRange (i c) (len (Host.Endpoints host)))
                 (answered [] (emit (HttpGet (statusUrl NewSSLClient "example.com")) w)))
  /\ (Host.Endpoints host = [] ->
      forall w' : World,
        WaitForAssessment NewSSLClient "example.com" w <> Returned (Ok host) w').
Proof.
  intros host w.
  apply (terminal_snapshot_lost_when_cursor_out_of_range
           NewSSLClient "example.com" (hostReply 200 "200 OK" host) []
           (hostDocument host) host eq_refl eq_refl w);
    reflexivity.
Defined.

(** ** Requests in a trace *)

Lemma requests_app (t1 t2 : list Event) :
  requests (t1 ++ t2)%list = (requests t1 ++ requests t2)%list.
Proof. unfold requests. apply flat_map_app. Qed.

Lemma requests_Stdout (lines : list string) : requests (map Stdout lines) = [].
Proof. induction lines as [|x l IH]; [reflexivity | exact IH]. Qed.

Lemma requests_prints (lines : list string) (w : World) :
  requests (trace (prints lines w)) = requests (trace w).
Proof.
  unfold prints. cbn. now rewrite requests_app, requests_Stdout, app_nil_r.
Qed.

Lemma requests_emit (e : Event) (w : World) :
  requests (trace (emit e w)) = (requests (trace w) ++ requests [e])%list.
Proof. unfold emit. cbn [trace]. apply requests_app. Qed.

Lemma decoded_Some (r : GetResult) (host : Host.t) :
  decoded r = Some host ->
  exists resp doc,
    r = GetOk resp /\ RespBody resp = Readable doc /\ asHost doc = Ok host.
Proof.
  destruct r as [err|resp]; cbn; [discriminate|].
  destruct (RespBody resp) as [err|doc] eqn:Hb; cbn; [discriminate|].
  unfold json_Unmarshal_Host.
  destruct (asHost doc) as [h|err] eqn:Hd; [|discriminate].
  intros [= <-]. now exists resp, doc.
Qed.

(** ** The loop on a service that keeps the cursor in range *)

(** When the answers before the first terminal snapshot keep the number
    of endpoints positive and never decreasing, the loop returns that
    snapshot unchanged, having made one request per answer up to it and
    none after it: the answers [rest] are left unread. *)
Lemma pollLoop_returns_first_terminal (s : SSLClient) (d : string)
      (r : GetResult) (rest : list GetResult) (host : Host.t) (m : Z) :
  decoded r = Some host ->
  terminal (Host.Status host) = true ->
  m <= len (Host.Endpoints host) ->
  forall (pre : list GetResult) (n : Z) (c : Locals) (w : World) (fuel : nat),
    script w = (pre ++ r :: rest)%list ->
    pendingRun n pre m ->
    0 <= i c < n ->
    (List.length pre < fuel)%nat ->
    exists w',
      pollLoop fuel s d c w = Returned (Ok host) w'
      /\ script w' = rest
      /\ requests (trace w')
         = (requests (trace w)
            ++ repeat (statusUrl s d) (S (List.length pre)))%list.
Proof.
  intros Hdec Hterm Hm.
  destruct (decoded_Some r host Hdec) as [resp [doc [-> [Hb Hd]]]].
  induction pre as [|q pre IH]; intros n c w fuel Hs Hrun Hi Hfuel.
  - cbn in Hrun. subst m. cbn [app] in Hs.
    destruct fuel as [|fuel]; [inversion Hfuel|].
    destruct (pollLoop_terminal_in_range s d resp rest doc host Hb Hd
                fuel c w Hs Hterm ltac:(lia)) as [lines Hl].
    eexists. split; [exact Hl|]. split; [reflexivity|].
    rewrite requests_prints. cbn [answered trace].
    now rewrite requests_emit.
  - cbn [pendingRun] in Hrun.
    destruct Hrun as [h [Hq [Hnt [Hn Hrun]]]].
    destruct (decoded_Some q h Hq) as [qresp [qdoc [-> [Hqb Hqd]]]].
    cbn [app] in Hs.
    destruct fuel as [|fuel]; [inversion Hfuel|].
    destruct (pollStep_in_range s d qresp (pre ++ GetOk resp :: rest)%list
                qdoc h Hqb Hqd c w Hs ltac:(lia)) as [c' [lines [Hi' [_ Hstep]]]].
    rewrite Hnt in Hstep.
    cbn [pollLoop]. rewrite (bind_Returned _ _ _ _ _ Hstep).
    destruct (IH (len (Host.Endpoints h)) c'
                 (emit (Sleep 10)
                    (prints lines
                       (answered (pre ++ GetOk resp :: rest)%list
                          (emit (HttpGet (statusUrl s d)) w))))
                 fuel eq_refl Hrun Hi' ltac:(cbn [List.length] in Hfuel; lia))
      as [w' [Hret [Hscript Hreq]]].
    exists w'. split; [exact Hret|]. split; [exact Hscript|].
    rewrite Hreq, requests_emit, requests_prints. cbn [answered trace].
    rewrite requests_emit. cbn [requests flat_map app repeat].
    now rewrite !app_nil_r, <- app_assoc.
Qed.

Lemma WaitForAssessment_returns_first_terminal (s : SSLClient) (d : string)
      (pre : list GetResult) (r : GetResult) (rest : list GetResult)
      (host : Host.t) (m : Z) (w : World) :
  script w = (pre ++ r :: rest)%list ->
  pendingRun 1 pre m ->
  decoded r = Some host ->
  terminal (Host.Status host) = true ->
  m <= len (Host.Endpoints host) ->
  exists w',
    WaitForAssessment s d w = Returned (Ok host) w'
    /\ script w' = rest
    /\ requests (trace w')
       = (requests (trace w) ++ repeat (statusUrl s d) (S (List.length pre)))%list.
Proof.
  intros Hs Hrun Hdec Hterm Hm. rewrite WaitForAssessment_unfold.
  destruct (pollLoop_returns_first_terminal s d r rest host m Hdec Hterm Hm
              pre 1 {| i := 0; endpoint := 1; flag := false |}
              (emit (Stdout ("Waiting for assessment to complete..." ++ nl)) w)
              (S (List.length (script w))) Hs Hrun)
    as [w' [Hret [Hscript Hreq]]].
  - cbn. lia.
  - rewrite Hs, length_app. cbn [List.length]. lia.
  - exists w'. split; [exact Hret|]. split; [exact Hscript|].
    rewrite Hreq, requests_emit. cbn [requests flat_map]. now rewrite app_nil_r.
Qed.

(** On answers that are all pending snapshots, with endpoints never
    missing nor fewer than before, the loop neither panics nor returns:
    it reads every answer and is polling again when they run out. *)
Lemma pollLoop_keeps_polling (s : SSLClient) (d : string) (m : Z) :
  forall (pre : list GetResult) (n : Z) (c : Locals) (w : World) (fuel : nat),
    script w = pre ->
    pendingRun n pre m ->
    0 <= i c < n ->
    (List.length pre < fuel)%nat ->
    exists w',
      pollLoop fuel s d c w = Starved w'
      /\ requests (trace w')
         = (requests (trace w)
            ++ repeat (statusUrl s d) (S (List.length pre)))%list.
Proof.
  induction pre as [|q pre IH]; intros n c w fuel Hs Hrun Hi Hfuel;
    (destruct fuel as [|fuel]; [inversion Hfuel|]).
  - exists (emit (HttpGet (statusUrl s d)) w). split.
    + cbn [pollLoop]. apply bind_Starved. unfold pollStep.
      apply bind_Starved. unfold CheckAssessmentStatus.
      apply bind_Starved. now apply http_Get_starved.
    + now rewrite requests_emit.
  - cbn [pendingRun] in Hrun.
    destruct Hrun as [h [Hq [Hnt [Hn Hrun]]]].
    destruct (decoded_Some q h Hq) as [qresp [qdoc [-> [Hqb Hqd]]]].
    destruct (pollStep_in_range s d qresp pre qdoc h Hqb Hqd c w Hs ltac:(lia))
      as [c' [lines [Hi' [_ Hstep]]]].
    rewrite Hnt in Hstep.
    cbn [pollLoop]. rewrite (bind_Returned _ _ _ _ _ Hstep).
    destruct (IH (len (Host.Endpoints h)) c'
                 (emit (Sleep 10)
                    (prints lines
                       (answered pre (emit (HttpGet (statusUrl s d)) w))))
                 fuel eq_refl Hrun Hi' ltac:(cbn [List.length] in Hfuel; lia))
      as [w' [Hret Hreq]].
    exists w'. split; [exact Hret|].
    rewrite Hreq, requests_emit, requests_prints. cbn [answered trace].
    rewrite requests_emit. cbn [requests flat_map app repeat].
    now rewrite !app_nil_r, <- app_assoc.
Qed.

(** The scenario of three polls: progress 40, then 100, then a second
    endpoint at 50 on a READY snapshot. *)
Example three_polls :
  let e1 p := sampleEndpoint "93.184.216.34" p in
  let e2 p := sampleEndpoint "93.184.216.35" p in
  let w := initial [ hostResponse 200 "200 OK" (sampleHost "IN_PROGRESS" [e1 40]);
                     hostResponse 200 "200 OK" (sampleHost "IN_PROGRESS" [e1 100]);
                     hostResponse 200 "200 OK" (sampleHost "READY" [e1 100; e2 50]) ] in
  output (trace (finalWorld (WaitForAssessment NewSSLClient "example.com" w)))
  = [ "Waiting for assessment to complete..." ++ nl;
      nl ++ "----- PROGRESS ON ENDPOINT 1 ----- " ++ nl;
      "      93.184.216.34:443 - 40%" ++ nl;
      "      93.184.216.34:443 - 100%" ++ nl;
      "      93.184.216.34:443 - 100%" ++ nl;
      "      93.184.216.34:443 - 100%" ++ nl;
      nl ++ "----- PROGRESS ON ENDPOINT 2 ----- " ++ nl;
      "      93.184.216.35:443 - 50%" ++ nl;
      nl ].
Proof. vm_compute. reflexivity. Qed.

(** A snapshot with fewer endpoints than the one before leaves the cursor
    past its end. *)
Example stale_cursor :
  let e p := sampleEndpoint "93.184.216.34" p in
  let w := initial [ hostResponse 200 "200 OK" (sampleHost "IN_PROGRESS" [e 100; e 40]);
                     hostResponse 200 "200 OK" (sampleHost "IN_PROGRESS" [e 100]) ] in
  exists w', WaitForAssessment NewSSLClient "example.com" w
             = Panicked (IndexOutOfRange 1 1) w'.
Proof. eexists. vm_compute. reflexivity. Qed.

(** WaitForAssessment returns a snapshot only with status READY or ERROR. *)
Lemma pollLoop_returns_terminal (s : SSLClient) (d : string) (fuel : nat) :
  forall (c : Locals) (w w' : World) (host : Host.t),
    pollLoop fuel s d c w = Returned (Ok host) w' ->
    terminal (Host.Status host) = true.
Proof.
  induction fuel as [|fuel IH]; intros c w w' host H; [discriminate|].
  cbn [pollLoop] in H. unfold bind at 1 in H.
  destruct (pollStep s d c w) as [r w1| | |] eqn:E; try discriminate.
  destruct r as [c'|res]; [now apply IH in H|].
  cbv [ret] in H. injection H as -> ->.
  revert E. unfold pollStep, bind.
  destruct (CheckAssessmentStatus s d w) as [r w2| | |]; try discriminate.
  destruct r as [h|err]; [|discriminate].
  destruct (trackProgress h c w2) as [c1 w3| | |]; try discriminate.
  destruct (index (Host.Endpoints h) (i c1) w3) as [e w4| | |]; try discriminate.
  cbv [Printf Println time_Sleep ret].
  destruct (terminal (Host.Status h)) eqn:T; [|discriminate].
  now intros [= <- _].
Qed.

Lemma WaitForAssessment_returns_terminal (s : SSLClient) (d : string)
      (w w' : World) (host : Host.t) :
  WaitForAssessment s d w = Returned (Ok host) w' ->
  terminal (Host.Status host) = true.
Proof. rewrite WaitForAssessment_unfold. apply pollLoop_returns_terminal. Qed.

(** ** Calendar time *)

Lemma year_of_era_bounds (doe : Z) :
  0 <= doe < 146097 ->
  let yoe := (doe - doe / 1460 + doe / 36524 - doe / 146096) / 365 in
  0 <= yoe < 400 /\ 0 <= doe - (365 * yoe + yoe / 4 - yoe / 100) < 366.
Proof.
  intros H yoe. subst yoe. Z.div_mod_to_equations. lia.
Qed.

Lemma month_day_bounds (doy : Z) :
  0 <= doy < 366 ->
  let mp := (5 * doy + 2) / 153 in
  let d := doy - (153 * mp + 2) / 5 + 1 in
  0 <= mp < 12 /\ 1 <= d <= 31.
Proof.
  intros H mp d. subst d mp. Z.div_mod_to_equations. lia.
Qed.

(** [civil_from_days] gives a month from 1 to 12 and a day from 1 to 31,
    and the date it gives is the one of the day it was given. *)
Lemma days_from_civil_from_days (z : Z) :
  let '(y, m, d) := civil_from_days z in
  days_from_civil y m d = z /\ 1 <= m <= 12 /\ 1 <= d <= 31.
Proof.
  unfold civil_from_days.
  set (era := (z + 719468) / 146097).
  set (doe := z + 719468 - era * 146097).
  assert (Hdoe : 0 <= doe < 146097).
  { subst doe era. Z.div_mod_to_equations. lia. }
  pose proof (year_of_era_bounds doe Hdoe) as Hy. cbv zeta in Hy.
  set (yoe := (doe - doe / 1460 + doe / 36524 - doe / 146096) / 365) in *.
  destruct Hy as [Hyoe Hdoy].
  set (doy := doe - (365 * yoe + yoe / 4 - yoe / 100)) in *.
  pose proof (month_day_bounds doy Hdoy) as Hm. cbv zeta in Hm.
  set (mp := (5 * doy + 2) / 153) in *.
  destruct Hm as [Hmp Hd].
  set (d := doy - (153 * mp + 2) / 5 + 1) in *.
  unfold days_from_civil.
  destruct (mp <? 10) eqn:E.
  - apply Z.ltb_lt in E.
    destruct (mp + 3 <=? 2) eqn:E2; [apply Z.leb_le in E2; lia|].
    replace (mp + 3 - 3) with mp by lia.
    replace ((yoe + era * 400) / 400) with era
      by (Z.div_mod_to_equations; lia).
    replace (yoe + era * 400 - era * 400) with yoe by lia.
    split; [|lia].
    unfold d, doy, doe. lia.
  - apply Z.ltb_ge in E.
    destruct (mp - 9 <=? 2) eqn:E2; [|apply Z.leb_gt in E2; lia].
    replace (mp - 9 + 9) with mp by lia.
    replace (yoe + era * 400 + 1 - 1) with (yoe + era * 400) by lia.
    replace ((yoe + era * 400) / 400) with era
      by (Z.div_mod_to_equations; lia).
    replace (yoe + era * 400 - era * 400) with yoe by lia.
    split; [|lia].
    unfold d, doy, doe. lia.
Qed.

Example formatAt_epoch : formatAt 0 0 = "1970-01-01 00:00:00".
Proof. reflexivity. Qed.

Example formatAt_leap_day_west :
  formatAt (-18000) 951782400 = "2000-02-28 19:00:00".
Proof. reflexivity. Qed.

Example formatAt_before_epoch : formatAt 0 (Z.quot (-1500) 1000) = "1969-12-31 23:59:59".
Proof. reflexivity. Qed.

(** ** displayResults *)

Lemma printEndpoint_prints (k : Z) (e : Endpoint.t) (w : World) :
  printEndpoint k e w = Returned tt (prints (endpointBlock (k + 1) e) w).
Proof.
  unfold printEndpoint, endpointBlock, Println.
  rewrite !bind_Printf. unfold Printf.
  now rewrite !prints_cons, prints_nil.
Qed.

Lemma rangeFrom_printEndpoint (l : list Endpoint.t) :
  forall (k : Z) (w : World),
    rangeFrom k l printEndpoint w
    = Returned tt (prints (endpointBlocks (k + 1) l) w).
Proof.
  induction l as [|e l IH]; intros k w.
  - cbn. now rewrite prints_nil.
  - cbn [rangeFrom endpointBlocks].
    rewrite (bind_Returned _ _ _ _ _ (printEndpoint_prints k e w)).
    now rewrite IH, prints_app.
Qed.

Lemma terminal_false (status : string) :
  terminal status = false ->
  (status =? "READY")%string = false /\ (status =? "ERROR")%string = false.
Proof. unfold terminal. apply orb_false_iff. Qed.

Lemma displayResults_READY (host : Host.t) (w : World) :
  Host.Status host = "READY" ->
  displayResults host w
  = Returned tt
      (prints (List.app
                 [ "Assessment Results:" ++ nl;
                   "Domain: " ++ Host.Host host ++ nl;
                   "Status: READY" ++ nl;
                   "Test completed: "
                   ++ formatAt (zone w (Z.quot (Host.TestTime host) 1000))
                               (Z.quot (Host.TestTime host) 1000) ++ nl ]
                 (endpointBlocks 1 (Host.Endpoints host))) w).
Proof.
  intros Hst. unfold displayResults. rewrite Hst.
  rewrite !bind_Printf. cbn [String.eqb Ascii.eqb Bool.eqb].
  unfold time_Unix_Format, bind at 1. rewrite bind_Printf.
  unfold range. rewrite rangeFrom_printEndpoint.
  rewrite prints_app, !prints_cons, prints_nil. reflexivity.
Qed.

Lemma displayResults_ERROR (host : Host.t) (w : World) :
  Host.Status host = "ERROR" ->
  displayResults host w
  = Returned tt
      (prints [ "Assessment Results:" ++ nl;
                "Domain: " ++ Host.Host host ++ nl;
                "Status: ERROR" ++ nl;
                "Assessment failed: " ++ Host.StatusMessage host ++ nl ] w).
Proof.
  intros Hst. unfold displayResults. rewrite Hst.
  rewrite !bind_Printf. cbn [String.eqb Ascii.eqb Bool.eqb]. unfold Printf.
  now rewrite !prints_cons, prints_nil.
Qed.

Lemma displayResults_other (host : Host.t) (w : World) :
  terminal (Host.Status host) = false ->
  displayResults host w
  = Returned tt
      (prints [ "Assessment Results:" ++ nl;
                "Domain: " ++ Host.Host host ++ nl;
                "Status: " ++ Host.Status host ++ nl ] w).
Proof.
  intros Hst. apply terminal_false in Hst. destruct Hst as [H1 H2].
  unfold displayResults. rewrite !bind_Printf, H1, H2. unfold ret.
  now rewrite !prints_cons, prints_nil.
Qed.

(** displayResults always returns, having done nothing but printing. *)
Lemma displayResults_returns (host : Host.t) (w : World) :
  exists lines, displayResults host w = Returned tt (prints lines w).
Proof.
  destruct (Host.Status host =? "READY")%string eqn:R.
  - apply String.eqb_eq in R. eexists. now apply displayResults_READY.
  - destruct (Host.Status host =? "ERROR")%string eqn:E.
    + apply String.eqb_eq in E. eexists. now apply displayResults_ERROR.
    + eexists. apply displayResults_other. unfold terminal. now rewrite R, E.
Qed.

(** C8: for a READY assessment displayResults returns normally, having
    printed the header, the domain, the status, the completion time (the
    instant TestTime/1000 seconds after the epoch, as a calendar date and
    time of day in the local zone) and then, for each endpoint in order,
    its block: number from 1, IP address, grade, status message, warnings
    flag.  Without endpoints only the first four lines are printed. *)
Theorem displayResults_ready_report (host : Host.t) (w : World) :
  Host.Status host = "READY" ->
  let sec := Z.quot (Host.TestTime host) 1000 in
  let head := [ "Assessment Results:" ++ nl;
                "Domain: " ++ Host.Host host ++ nl;
                "Status: READY" ++ nl;
                "Test completed: " ++ formatAt (zone w sec) sec ++ nl ] in
  displayResults host w
  = Returned tt (prints (head ++ endpointBlocks 1 (Host.Endpoints host))%list w)
  /\ (Host.Endpoints host = [] ->
      displayResults host w = Returned tt (prints head w)).
Proof.
  intros Hst sec head. split.
  - now apply displayResults_READY.
  - intros He. rewrite (displayResults_READY host w Hst), He.
    cbn [endpointBlocks]. now rewrite app_nil_r.
Qed.

Lemma displayResults_ready_report_witness :
  let host := sampleHost "READY" [sampleEndpoint "93.184.216.34" 100;
                                  sampleEndpoint "93.184.216.35" 100] in
  output (trace (finalWorld (displayResults host (initial []))))
  = [ "Assessment Results:" ++ nl;
      "Domain: example.com" ++ nl;
      "Status: READY" ++ nl;
      "Test completed: 2023-11-14 22:13:20" ++ nl;
      "Endpoint 1:" ++ nl;
      "  IP Address: 93.184.216.34" ++ nl;
      "  Grade: A" ++ nl;
      "  Status Message: Ready" ++ nl;
      "  Has Warnings: false" ++ nl;
      nl;
      "Endpoint 2:" ++ nl;
      "  IP Address: 93.184.216.35" ++ nl;
      "  Grade: A" ++ nl;
      "  Status Message: Ready" ++ nl;
      "  Has Warnings: false" ++ nl;
      nl ].
Proof.
  intros host.
  destruct (displayResults_ready_report host (initial []) eq_refl) as [H _].
  rewrite H. vm_compute. reflexivity.
Defined.

(** C5, counterexample: on an assessment with status DNS displayResults
    returns normally after the three header lines; it is not true that
    every non-terminal status makes it fail loudly. *)
Lemma displayResults_not_loud_counterexample :
  ~ (forall (host : Host.t) (w : World),
        terminal (Host.Status host) = false ->
        failsLoudly (displayResults host w)).
Proof.
  intros H.
  exact (H (sampleHost "DNS" []) (initial []) eq_refl).
Qed.

(** C5, amended: on an assessment whose status is neither READY nor ERROR
    displayResults prints the three header lines (title, domain, status)
    and returns normally; it signals nothing. *)
Theorem displayResults_silent_on_other_status (host : Host.t) (w : World) :
  terminal (Host.Status host) = false ->
  displayResults host w
  = Returned tt
      (prints [ "Assessment Results:" ++ nl;
                "Domain: " ++ Host.Host host ++ nl;
                "Status: " ++ Host.Status host ++ nl ] w)
  /\ ~ failsLoudly (displayResults host w).
Proof.
  intros Hst. rewrite (displayResults_other host w Hst).
  split; [reflexivity | intros []].
Qed.

Lemma displayResults_silent_on_other_status_witness :
  displayResults (sampleHost "DNS" []) (initial [])
  = Returned tt
      (prints [ "Assessment Results:" ++ nl;
                "Domain: example.com" ++ nl;
                "Status: DNS" ++ nl ] (initial []))
  /\ ~ failsLoudly (displayResults (sampleHost "DNS" []) (initial [])).
Proof.
  apply (displayResults_silent_on_other_status (sampleHost "DNS" []) (initial [])).
  reflexivity.
Defined.

(** ** CheckApiStatus *)

Ltac requests_of_trace :=
  cbn [finalWorld ret answered trace emit script zone];
  rewrite ?requests_app; cbn [requests flat_map app];
  rewrite ?app_nil_r; reflexivity.

Lemma CheckApiStatus_requests (s : SSLClient) (w : World) :
  requests (trace (finalWorld (CheckApiStatus s w)))
  = List.app (requests (trace w)) [baseurl s ++ "/info"].
Proof.
  unfold CheckApiStatus, bind at 1. unfold http_Get.
  destruct (script w) as [|r rest]; [requests_of_trace|].
  destruct r as [err|resp]; [requests_of_trace|].
  destruct (negb (StatusCode resp =? http_StatusOK)); [requests_of_trace|].
  destruct (io_ReadAll (RespBody resp)) as [doc|err]; [|requests_of_trace].
  destruct (json_Unmarshal_Info doc) as [info|err]; [|requests_of_trace].
  unfold Println. rewrite !bind_Printf. requests_of_trace.
Qed.

Lemma CheckApiStatus_unreachable (s : SSLClient) (w : World) (err : string)
      (rest : list GetResult) :
  script w = GetErr err :: rest ->
  CheckApiStatus s w
  = Returned (Err ("failed to reach SSL Labs API: " ++ err))
             (answered rest (emit (HttpGet (baseurl s ++ "/info")) w)).
Proof.
  intros Hs. unfold CheckApiStatus.
  now rewrite (bind_Returned _ _ _ _ _ (http_Get_answered _ _ _ _ Hs)).
Qed.

Lemma CheckApiStatus_decoded (s : SSLClient) (w : World) (resp : Response)
      (rest : list GetResult) (doc : Document) (info : Info.t) :
  script w = GetOk resp :: rest ->
  StatusCode resp = http_StatusOK ->
  RespBody resp = Readable doc ->
  asInfo doc = Ok info ->
  CheckApiStatus s w
  = Returned (Ok info)
      (prints [ "SSL Labs API is reachable." ++ nl;
                "Criteria Version: " ++ Info.CriteriaVersion info ++ nl;
                "Concurrent assessments allowed: "
                ++ fmt_d (Info.MaxAssessments info) ++ nl;
                "Current assessments: "
                ++ fmt_d (Info.CurrentAssessments info) ++ nl ]
         (answered rest (emit (HttpGet (baseurl s ++ "/info")) w))).
Proof.
  intros Hs Hc Hb Hd. unfold CheckApiStatus.
  rewrite (bind_Returned _ _ _ _ _ (http_Get_answered _ _ _ _ Hs)).
  rewrite Hc, Z.eqb_refl, Hb. cbn [negb io_ReadAll].
  unfold json_Unmarshal_Info. rewrite Hd.
  unfold Println. rewrite !bind_Printf. unfold ret.
  now rewrite !prints_cons, prints_nil.
Qed.

(** ** main, stage by stage *)

Lemma main_usage (args : Flags) (w : World) :
  help args = true \/ domain args = EmptyString ->
  main args w
  = Exited 0 (emit Usage (prints [ "SSL Labs API Checker" ++ nl;
                                   "Usage:" ++ nl ] w)).
Proof.
  intros H.
  assert (E : help args || (domain args =? EmptyString)%string = true).
  { destruct H as [H|H]; rewrite H; [reflexivity|].
    rewrite String.eqb_refl. apply orb_true_r. }
  unfold main. rewrite E.
  apply bind_Exited. unfold Println. rewrite !bind_Printf.
  now rewrite !prints_cons, prints_nil.
Qed.

Lemma capacity_left (info : Info.t) :
  Info.CurrentAssessments info < Info.MaxAssessments info ->
  (Info.CurrentAssessments info >=? Info.MaxAssessments info) = false.
Proof. intros H. rewrite Z.geb_leb. apply Z.leb_gt. lia. Qed.

Lemma capacity_reached (info : Info.t) :
  Info.CurrentAssessments info >= Info.MaxAssessments info ->
  (Info.CurrentAssessments info >=? Info.MaxAssessments info) = true.
Proof. intros H. rewrite Z.geb_leb. apply Z.leb_le. lia. Qed.

Lemma script_prints (lines : list string) (w : World) :
  script (prints lines w) = script w.
Proof. reflexivity. Qed.

Lemma exitCode_displayResults (host : Host.t) (w : World) :
  exitCode (displayResults host w) = Some 0.
Proof.
  destruct (displayResults_returns host w) as [lines Hl]. now rewrite Hl.
Qed.

Section Run.

(** A run with a domain and without --help, from the world [w]. *)
Variables (args : Flags) (w : World).
Hypothesis Hhelp : help args = false.
Hypothesis Hdomain : domain args <> EmptyString.

Lemma proceeds : help args || (domain args =? EmptyString)%string = false.
Proof. rewrite Hhelp. now apply String.eqb_neq. Qed.

Lemma main_info_error (w1 : World) (err : string) :
  CheckApiStatus NewSSLClient w = Returned (Err err) w1 ->
  main args w = Exited 1 (prints [ "Error: " ++ err ++ nl ] w1).
Proof.
  intros Hc. unfold main. rewrite proceeds.
  rewrite (bind_Returned _ _ w w tt eq_refl).
  rewrite (bind_Returned _ _ _ _ _ Hc).
  apply bind_Exited. rewrite bind_Printf.
  now rewrite prints_cons, prints_nil.
Qed.

Section Informed.

(** The service-info call has returned [info]. *)
Variables (info : Info.t) (w1 : World).
Hypothesis Hinfo : CheckApiStatus NewSSLClient w = Returned (Ok info) w1.

Lemma main_capacity :
  Info.CurrentAssessments info >= Info.MaxAssessments info ->
  main args w
  = Exited 1
      (prints [ "Maximum number of concurrent assessments reached. Please try again later."
                ++ nl ] w1).
Proof.
  intros Hcap. unfold main. rewrite proceeds.
  rewrite (bind_Returned _ _ w w tt eq_refl).
  rewrite (bind_Returned _ _ _ _ _ Hinfo).
  rewrite (bind_Returned _ _ w1 w1 info eq_refl).
  rewrite (capacity_reached info Hcap).
  apply bind_Exited. unfold Println. rewrite bind_Printf.
  now rewrite prints_cons, prints_nil.
Qed.

(** C3: when the service reports as many current assessments as its
    maximum, or more, main prints the capacity message and exits with
    status 1 right after the service-info call: the only request of the
    run is the one to /info, no start request is made and no further
    answer of the service is read. *)
Theorem capacity_exceeded_aborts_before_start :
  Info.CurrentAssessments info >= Info.MaxAssessments info ->
  main args w
  = Exited 1
      (prints [ "Maximum number of concurrent assessments reached. Please try again later."
                ++ nl ] w1)
  /\ requests (trace (finalWorld (main args w)))
     = List.app (requests (trace w)) [ "https://api.ssllabs.com/api/v2/info" ]
  /\ script (finalWorld (main args w)) = script w1.
Proof.
  intros Hcap. rewrite (main_capacity Hcap).
  split; [reflexivity|]. split; [|reflexivity].
  cbn [finalWorld]. rewrite requests_prints.
  pose proof (CheckApiStatus_requests NewSSLClient w) as Hr.
  rewrite Hinfo in Hr. exact Hr.
Qed.

Section Started.

(** There is capacity left, so the start request is made. *)
Hypothesis Hcapacity :
  Info.CurrentAssessments info < Info.MaxAssessments info.

Local Abbreviation start :=
  (StartAssessment NewSSLClient (domain args) (publish args) (announced args w1)).

(** [main] up to the start request, whose outcome is given by [Hst]. *)
Ltac run_to_start Hst :=
  unfold main; rewrite proceeds;
  rewrite (bind_Returned _ _ w w tt eq_refl);
  rewrite (bind_Returned _ _ _ _ _ Hinfo);
  rewrite (bind_Returned _ _ w1 w1 info eq_refl);
  rewrite (capacity_left info Hcapacity);
  rewrite (bind_Returned _ _ w1 w1 tt eq_refl);
  unfold Println; rewrite !bind_Printf;
  unfold announced in Hst; rewrite !prints_cons, prints_nil in Hst;
  rewrite (bind_Returned _ _ _ _ _ Hst).

Lemma main_start_error (w2 : World) (err : string) :
  start = Returned (Err err) w2 ->
  main args w
  = Exited 1 (prints [ "Error starting assessment: " ++ err ++ nl ] w2).
Proof.
  intros Hst. run_to_start Hst.
  apply bind_Exited. rewrite bind_Printf.
  now rewrite prints_cons, prints_nil.
Qed.

(** Once the start request has returned a snapshot, [main] renders it at
    once when it is terminal, and otherwise waits first. *)
Lemma main_started (host : Host.t) (w2 : World) :
  start = Returned (Ok host) w2 ->
  main args w
  = if terminal (Host.Status host)
    then displayResults host (started host w2)
    else bind (WaitForAssessment NewSSLClient (domain args)) afterWait
              (started host w2).
Proof.
  intros Hst. run_to_start Hst.
  rewrite (bind_Returned _ _ w2 w2 host eq_refl).
  rewrite bind_Printf.
  unfold started. rewrite prints_cons, prints_nil.
  unfold terminal.
  destruct (Host.Status host =? "READY")%string; [reflexivity|].
  destruct (Host.Status host =? "ERROR")%string; [reflexivity|].
  cbn [negb andb orb]. unfold bind.
  destruct (WaitForAssessment _ _ _) as [r w3| | |]; try reflexivity.
  destruct r as [h|e]; reflexivity.
Qed.

(** C6: when the snapshot returned by the start request is already READY
    or ERROR, main renders it directly: no status request is made and no
    further answer is read.  Otherwise main runs WaitForAssessment and
    renders the snapshot that one returns (or reports its error). *)
Theorem terminal_start_skips_polling (host : Host.t) (w2 : World) :
  start = Returned (Ok host) w2 ->
  (terminal (Host.Status host) = true ->
   main args w = displayResults host (started host w2)
   /\ requests (trace (finalWorld (main args w))) = requests (trace w2)
   /\ script (finalWorld (main args w)) = script w2)
  /\ (terminal (Host.Status host) = false ->
      main args w
      = bind (WaitForAssessment NewSSLClient (domain args)) afterWait
             (started host w2)).
Proof.
  intros Hst. pose proof (main_started host w2 Hst) as Hm.
  split; intros Ht; rewrite Ht in Hm; [|exact Hm].
  split; [exact Hm|]. rewrite Hm.
  destruct (displayResults_returns host (started host w2)) as [lines Hl].
  rewrite Hl. cbn [finalWorld]. unfold started.
  now rewrite !requests_prints, !script_prints.
Qed.

Lemma main_wait_error (host : Host.t) (w2 w3 : World) (err : string) :
  start = Returned (Ok host) w2 ->
  terminal (Host.Status host) = false ->
  WaitForAssessment NewSSLClient (domain args) (started host w2)
  = Returned (Err err) w3 ->
  main args w
  = Exited 1 (prints [ "Error waiting for assessment: " ++ err ++ nl ] w3).
Proof.
  intros Hst Ht Hw. rewrite (main_started host w2 Hst), Ht.
  rewrite (bind_Returned _ _ _ _ _ Hw). cbn [afterWait].
  rewrite bind_Printf. unfold os_Exit.
  now rewrite prints_cons, prints_nil.
Qed.

Lemma main_wait_done (host host' : Host.t) (w2 w3 : World) :
  start = Returned (Ok host) w2 ->
  terminal (Host.Status host) = false ->
  WaitForAssessment NewSSLClient (domain args) (started host w2)
  = Returned (Ok host') w3 ->
  main args w = displayResults host' w3.
Proof.
  intros Hst Ht Hw. rewrite (main_started host w2 Hst), Ht.
  now rewrite (bind_Returned _ _ _ _ _ Hw).
Qed.

End Started.
End Informed.
End Run.

Lemma capacity_exceeded_aborts_before_start_witness :
  let args := {| domain := "example.com"; publish := false; help := false |} in
  let w := initial [ infoResponse (sampleInfo 20 20);
                     hostResponse 200 "200 OK" (sampleHost "READY" []) ] in
  exitCode (main args w) = Some 1
  /\ requests (trace (finalWorld (main args w)))
     = [ "https://api.ssllabs.com/api/v2/info" ]
  /\ script (finalWorld (main args w))
     = [ hostResponse 200 "200 OK" (sampleHost "READY" []) ].
Proof.
  intros args w.
  pose proof (CheckApiStatus_decoded NewSSLClient w
                (infoReply (sampleInfo 20 20))
                [ hostResponse 200 "200 OK" (sampleHost "READY" []) ]
                (infoDocument (sampleInfo 20 20)) (sampleInfo 20 20)
                eq_refl eq_refl eq_refl eq_refl) as Hc.
  destruct (capacity_exceeded_aborts_before_start args w
              eq_refl ltac:(discriminate) (sampleInfo 20 20) _ Hc
              ltac:(cbn; lia))
    as [Hm [Hr Hs]].
  split; [now rewrite Hm|]. split; [exact Hr | exact Hs].
Defined.

Lemma terminal_start_skips_polling_witness :
  let args := {| domain := "example.com"; publish := false; help := false |} in
  let host := sampleHost "READY" [sampleEndpoint "93.184.216.34" 100] in
  let w := initial [ infoResponse (sampleInfo 20 3);
                     hostResponse 200 "200 OK" host ] in
  requests (trace (finalWorld (main args w)))
  = [ "https://api.ssllabs.com/api/v2/info";
      "https://api.ssllabs.com/api/v2/analyze?host=example.com&all=done&startNew=on" ].
Proof.
  intros args host w.
  pose proof (CheckApiStatus_decoded NewSSLClient w
                (infoReply (sampleInfo 20 3)) [ hostResponse 200 "200 OK" host ]
                (infoDocument (sampleInfo 20 3)) (sampleInfo 20 3)
                eq_refl eq_refl eq_refl eq_refl) as Hc.
  match type of Hc with
  | _ = Returned _ ?w1 =>
      pose proof (StartAssessment_decoded NewSSLClient "example.com" false
                    (announced args w1) (hostReply 200 "200 OK" host) []
                    (hostDocument host) host eq_refl eq_refl eq_refl) as Hst
  end.
  destruct (terminal_start_skips_polling args w eq_refl ltac:(discriminate)
              (sampleInfo 20 3) _ Hc ltac:(cbn; lia) host _ Hst)
    as [Hterm _].
  destruct (Hterm eq_refl) as [_ [Hr _]].
  rewrite Hr. reflexivity.
Defined.

(** X20: the exit status of main, stage by stage.  With --help or
    without a domain main prints the usage and exits with 0.  Otherwise
    it exits with 1 when CheckApiStatus returns an error (in particular
    when the service cannot be reached), when the capacity is exhausted,
    when StartAssessment returns an error and when WaitForAssessment
    returns an error; and it returns, so the process ends with 0, once it
    has rendered the snapshot of the start call, if that one is READY or
    ERROR, or else the snapshot WaitForAssessment returned, which is
    always READY or ERROR.  A start or poll answered with an error status
    and a body that decodes is not an error of these functions. *)
Theorem exit_status_of_main (args : Flags) (w : World) :
  (help args = true \/ domain args = EmptyString ->
   main args w
   = Exited 0 (emit Usage (prints [ "SSL Labs API Checker" ++ nl;
                                    "Usage:" ++ nl ] w)))
  /\ (help args = false -> domain args <> EmptyString ->
      (forall err rest,
          script w = GetErr err :: rest -> exitCode (main args w) = Some 1)
      /\ (forall err w1,
             CheckApiStatus NewSSLClient w = Returned (Err err) w1 ->
             exitCode (main args w) = Some 1)
      /\ (forall info w1,
             CheckApiStatus NewSSLClient w = Returned (Ok info) w1 ->
             (Info.CurrentAssessments info >= Info.MaxAssessments info ->
              exitCode (main args w) = Some 1)
             /\ (Info.CurrentAssessments info < Info.MaxAssessments info ->
                 (forall err w2,
                     StartAssessment NewSSLClient (domain args) (publish args)
                                     (announced args w1)
                     = Returned (Err err) w2 ->
                     exitCode (main args w) = Some 1)
                 /\ (forall host w2,
                        StartAssessment NewSSLClient (domain args) (publish args)
                                        (announced args w1)
                        = Returned (Ok host) w2 ->
                        (terminal (Host.Status host) = true ->
                         main args w = displayResults host (started host w2)
                         /\ exitCode (main args w) = Some 0)
                        /\ (terminal (Host.Status host) = false ->
                            (forall err w3,
                                WaitForAssessment NewSSLClient (domain args)
                                                  (started host w2)
                                = Returned (Err err) w3 ->
                                exitCode (main args w) = Some 1)
                            /\ (forall host' w3,
                                   WaitForAssessment NewSSLClient (domain args)
                                                     (started host w2)
                                   = Returned (Ok host') w3 ->
                                   terminal (Host.Status host') = true
                                   /\ main args w = displayResults host' w3
                                   /\ exitCode (main args w) = Some 0)))))).
Proof.
  split; [apply main_usage|].
  intros H1 H2. split; [|split].
  - intros err rest Hs.
    now rewrite (main_info_error args w H1 H2 _ _
                   (CheckApiStatus_unreachable NewSSLClient w err rest Hs)).
  - intros err w1 Hc. now rewrite (main_info_error args w H1 H2 w1 err Hc).
  - intros info w1 Hc. split.
    + intros Hcap. now rewrite (main_capacity args w H1 H2 info w1 Hc Hcap).
    + intros Hcap. split.
      * intros err w2 Hst.
        now rewrite (main_start_error args w H1 H2 info w1 Hc Hcap w2 err Hst).
      * intros host w2 Hst.
        pose proof (main_started args w H1 H2 info w1 Hc Hcap host w2 Hst) as Hm.
        split; intros Ht.
        -- rewrite Ht in Hm. split; [exact Hm|].
           rewrite Hm. apply exitCode_displayResults.
        -- split.
           ++ intros err w3 Hw.
              now rewrite (main_wait_error args w H1 H2 info w1 Hc Hcap
                             host w2 w3 err Hst Ht Hw).
           ++ intros host' w3 Hw.
              pose proof (main_wait_done args w H1 H2 info w1 Hc Hcap
                            host host' w2 w3 Hst Ht Hw) as Hd.
              split; [exact (WaitForAssessment_returns_terminal _ _ _ _ _ Hw)|].
              split; [exact Hd|].
              rewrite Hd. apply exitCode_displayResults.
Qed.

Lemma exit_status_of_main_witness :
  exitCode (main {| domain := EmptyString; publish := false; help := false |}
                 (initial []))
  = Some 0
  /\ exitCode (main {| domain := "example.com"; publish := false; help := false |}
                    (initial [GetErr "dial tcp: i/o timeout"]))
     = Some 1
  /\ exitCode (main {| domain := "example.com"; publish := false; help := false |}
                    (initial [ infoResponse (sampleInfo 20 3);
                               hostResponse 200 "200 OK" (sampleHost "ERROR" []) ]))
     = Some 0.
Proof.
  split; [|split].
  - destruct (exit_status_of_main
                {| domain := EmptyString; publish := false; help := false |} (initial []))
      as [Hu _].
    rewrite (Hu (or_intror eq_refl)). reflexivity.
  - destruct (exit_status_of_main
                {| domain := "example.com"; publish := false; help := false |}
                (initial [GetErr "dial tcp: i/o timeout"]))
      as [_ Hrun].
    destruct (Hrun eq_refl ltac:(discriminate)) as [Hunreachable _].
    exact (Hunreachable "dial tcp: i/o timeout" [] eq_refl).
  - set (args := {| domain := "example.com"; publish := false; help := false |}).
    set (host := sampleHost "ERROR" []).
    set (w := initial [ infoResponse (sampleInfo 20 3);
                        hostResponse 200 "200 OK" host ]).
    destruct (exit_status_of_main args w) as [_ Hrun].
    destruct (Hrun eq_refl ltac:(discriminate)) as [_ [_ Hinfo]].
    pose proof (CheckApiStatus_decoded NewSSLClient w
                  (infoReply (sampleInfo 20 3)) [ hostResponse 200 "200 OK" host ]
                  (infoDocument (sampleInfo 20 3)) (sampleInfo 20 3)
                  eq_refl eq_refl eq_refl eq_refl) as Hc.
    destruct (Hinfo _ _ Hc) as [_ Hcapacity].
    destruct (Hcapacity ltac:(cbn; lia)) as [_ Hstart].
    match type of Hc with
    | _ = Returned _ ?w1 =>
        pose proof (StartAssessment_decoded NewSSLClient "example.com" false
                      (announced args w1) (hostReply 200 "200 OK" host) []
                      (hostDocument host) host eq_refl eq_refl eq_refl) as Hst
    end.
    destruct (Hstart _ _ Hst) as [Hterm _].
    exact (proj2 (Hterm eq_refl)).
Defined.

(** C9 (as the code has it): a start request answered with an error
    status is no failure for main.  When the body of that answer decodes
    (to a snapshot that is not terminal), main goes on to poll; it then
    ends with status 2, on the panic of the progress display, when the
    first poll brings a snapshot without endpoints, and with status 0
    when it brings a terminal snapshot with endpoints: in neither case
    with status 1. *)
Theorem error_status_at_start_is_not_exit_1
        (args : Flags) (w : World)
        (iresp sresp presp : Response) (idoc sdoc pdoc : Document)
        (info : Info.t) (host0 phost : Host.t) (rest : list GetResult) :
  help args = false -> domain args <> EmptyString ->
  script w = GetOk iresp :: GetOk sresp :: GetOk presp :: rest ->
  StatusCode iresp = http_StatusOK ->
  RespBody iresp = Readable idoc -> asInfo idoc = Ok info ->
  Info.CurrentAssessments info < Info.MaxAssessments info ->
  StatusCode sresp <> http_StatusOK ->
  RespBody sresp = Readable sdoc -> asHost sdoc = Ok host0 ->
  terminal (Host.Status host0) = false ->
  RespBody presp = Readable pdoc -> asHost pdoc = Ok phost ->
  (Host.Endpoints phost = [] -> exitCode (main args w) = Some 2)
  /\ (terminal (Host.Status phost) = true ->
      Host.Endpoints phost <> [] ->
      exitCode (main args w) = Some 0).
Proof.
  intros Hhelp Hdomain Hs Hcode Hib Hid Hcap _ Hsb Hsd Hnt Hpb Hpd.
  pose proof (CheckApiStatus_decoded NewSSLClient w iresp _ idoc info
                Hs Hcode Hib Hid) as Hc.
  match type of Hc with
  | _ = Returned _ ?x => set (w1 := x) in *
  end.
  pose proof (StartAssessment_decoded NewSSLClient (domain args) (publish args)
                (announced args w1) sresp (GetOk presp :: rest) sdoc host0
                eq_refl Hsb Hsd) as Hst.
  match type of Hst with
  | _ = Returned _ ?x => set (w2 := x) in *
  end.
  pose proof (main_started args w Hhelp Hdomain info w1 Hc Hcap host0 w2 Hst)
    as Hmain.
  rewrite Hnt in Hmain.
  split.
  - intros He. rewrite Hmain.
    assert (Hwait : WaitForAssessment NewSSLClient (domain args) (started host0 w2)
                    = Panicked (IndexOutOfRange 0 (len (Host.Endpoints phost)))
                        (answered rest
                           (emit (HttpGet (statusUrl NewSSLClient (domain args)))
                              (emit (Stdout ("Waiting for assessment to complete..."
                                             ++ nl))
                                    (started host0 w2))))).
    { rewrite WaitForAssessment_unfold.
      apply (pollLoop_out_of_range NewSSLClient (domain args) presp rest
               pdoc phost Hpb Hpd _
               {| i := 0; endpoint := 1; flag := false |}
               (emit (Stdout ("Waiting for assessment to complete..." ++ nl))
                     (started host0 w2))
               eq_refl).
      rewrite He. cbn. lia. }
    now rewrite (bind_Panicked _ _ _ _ _ Hwait).
  - intros Hterm Hne.
    assert (Hdec : decoded (GetOk presp) = Some phost).
    { cbn [decoded]. rewrite Hpb. cbn [io_ReadAll].
      unfold json_Unmarshal_Host. now rewrite Hpd. }
    assert (Hlen : 1 <= len (Host.Endpoints phost)).
    { destruct (Host.Endpoints phost) as [|e l]; [contradiction|].
      unfold len. cbn [List.length]. lia. }
    destruct (WaitForAssessment_returns_first_terminal NewSSLClient (domain args)
                [] (GetOk presp) rest phost 1 (started host0 w2)
                eq_refl eq_refl Hdec Hterm Hlen)
      as [w3 [Hw _]].
    rewrite (main_wait_done args w Hhelp Hdomain info w1 Hc Hcap
               host0 phost w2 w3 Hst Hnt Hw).
    apply exitCode_displayResults.
Qed.

Lemma error_status_at_start_is_not_exit_1_witness :
  let args := {| domain := "example.com"; publish := false; help := false |} in
  let refused := hostResponse 429 "429 Too Many Requests" zeroHost in
  let ready := sampleHost "READY" [sampleEndpoint "93.184.216.34" 100] in
  exitCode (main args
              (initial [ infoResponse (sampleInfo 20 3); refused; refused ]))
  = Some 2
  /\ exitCode (main args
                 (initial [ infoResponse (sampleInfo 20 3); refused;
                            hostResponse 200 "200 OK" ready ]))
     = Some 0.
Proof.
  intros args refused ready. split.
  - refine (proj1 (error_status_at_start_is_not_exit_1 args
                     (initial [ infoResponse (sampleInfo 20 3); refused; refused ])
                     (infoReply (sampleInfo 20 3))
                     (hostReply 429 "429 Too Many Requests" zeroHost)
                     (hostReply 429 "429 Too Many Requests" zeroHost)
                     (infoDocument (sampleInfo 20 3))
                     (hostDocument zeroHost) (hostDocument zeroHost)
                     (sampleInfo 20 3) zeroHost zeroHost []
                     eq_refl _ eq_refl eq_refl eq_refl eq_refl _ _
                     eq_refl eq_refl eq_refl eq_refl eq_refl) eq_refl);
      first [ discriminate | cbn; unfold http_StatusOK; lia ].
  - refine (proj2 (error_status_at_start_is_not_exit_1 args
                     (initial [ infoResponse (sampleInfo 20 3); refused;
                                hostResponse 200 "200 OK" ready ])
                     (infoReply (sampleInfo 20 3))
                     (hostReply 429 "429 Too Many Requests" zeroHost)
                     (hostReply 200 "200 OK" ready)
                     (infoDocument (sampleInfo 20 3))
                     (hostDocument zeroHost) (hostDocument ready)
                     (sampleInfo 20 3) zeroHost ready []
                     eq_refl _ eq_refl eq_refl eq_refl eq_refl _ _
                     eq_refl eq_refl eq_refl eq_refl eq_refl) eq_refl _);
      first [ discriminate | cbn; unfold http_StatusOK; lia ].
Defined.

(** ** Cutting and splitting strings *)

Lemma occurs_app (c : ascii) (a b : string) :
  occurs c (a ++ b) = occurs c a || occurs c b.
Proof.
  induction a as [|x a IH]; cbn; [reflexivity|].
  now rewrite IH, orb_assoc.
Qed.

Lemma cut_app_free (c : ascii) (a b : string) :
  occurs c a = false ->
  cut c (a ++ b) = (a ++ fst (cut c b), snd (cut c b)).
Proof.
  induction a as [|x a IH]; cbn; intros H.
  - now destruct (cut c b).
  - apply orb_false_iff in H. destruct H as [Hx Ha].
    rewrite Hx, (IH Ha). reflexivity.
Qed.

Lemma cut_free (c : ascii) (a : string) :
  occurs c a = false -> cut c a = (a, None).
Proof.
  intros H. rewrite <- (append_nil_r a) at 1.
  rewrite (cut_app_free c a EmptyString H). cbn. now rewrite append_nil_r.
Qed.

Lemma cut_app_hit (c : ascii) (a b : string) :
  occurs c a = false ->
  cut c (a ++ String c b) = (a, Some b).
Proof.
  intros H. rewrite (cut_app_free c a _ H). cbn.
  rewrite Ascii.eqb_refl. cbn. now rewrite append_nil_r.
Qed.

Lemma split_app_hit (c : ascii) (a b : string) :
  occurs c a = false ->
  split c (a ++ String c b) = a :: split c b.
Proof.
  induction a as [|x a IH]; cbn; intros H.
  - now rewrite Ascii.eqb_refl.
  - apply orb_false_iff in H. destruct H as [Hx Ha].
    now rewrite Hx, (IH Ha).
Qed.

Lemma split_free (c : ascii) (a : string) :
  occurs c a = false -> split c a = [a].
Proof.
  induction a as [|x a IH]; cbn; intros H; [reflexivity|].
  apply orb_false_iff in H. destruct H as [Hx Ha].
  now rewrite Hx, (IH Ha).
Qed.

(** ** The query of the two analyze URLs *)

(** The query of [base/analyze?host=...] starts at [host=] and stops at
    the first [#] of what follows. *)
Lemma rawQuery_analyze (base rest : string) :
  occurs "?" base = false ->
  occurs "#" base = false ->
  rawQuery (base ++ "/analyze?host=" ++ rest)
  = "host=" ++ fst (cut "#" rest).
Proof.
  intros Hq Hf. unfold rawQuery.
  replace (base ++ "/analyze?host=" ++ rest)
    with ((base ++ "/analyze?host=") ++ rest) by apply append_assoc.
  rewrite (cut_app_free "#" (base ++ "/analyze?host=") rest).
  2:{ rewrite occurs_app, Hf. reflexivity. }
  cbn [fst].
  replace ((base ++ "/analyze?host=") ++ fst (cut "#" rest))
    with ((base ++ "/analyze") ++ String "?" ("host=" ++ fst (cut "#" rest))).
  2:{ rewrite !append_assoc. reflexivity. }
  rewrite cut_app_hit; [reflexivity|].
  rewrite occurs_app, Hq. reflexivity.
Qed.

Lemma queryParams_host (base p rest : string) :
  occurs "?" base = false ->
  occurs "#" base = false ->
  occurs "&" p = false ->
  occurs "#" p = false ->
  queryParams (base ++ "/analyze?host=" ++ p ++ String "&" rest)
  = ("host", p)
    :: map keyValue
         (filter (fun seg => negb (seg =? EmptyString)%string)
                 (split "&" (fst (cut "#" rest)))).
Proof.
  intros Hq Hf Ha Hh. unfold queryParams.
  rewrite (rawQuery_analyze base _ Hq Hf).
  rewrite (cut_app_free "#" p _ Hh). cbn [fst].
  assert (E : cut "#" (String "&" rest)
              = (String "&" (fst (cut "#" rest)), snd (cut "#" rest))).
  { cbn. now destruct (cut "#" rest). }
  rewrite E. cbn [fst].
  replace ("host=" ++ p ++ String "&" (fst (cut "#" rest)))
    with (("host=" ++ p) ++ String "&" (fst (cut "#" rest)))
    by apply append_assoc.
  rewrite split_app_hit.
  2:{ rewrite occurs_app, Ha. reflexivity. }
  cbn [filter]. 
  replace (negb ("host=" ++ p =? EmptyString)%string) with true by reflexivity.
  cbn [map]. f_equal.
Qed.

Lemma queryParams_statusUrl (s : SSLClient) (d : string) :
  occurs "?" (baseurl s) = false ->
  occurs "#" (baseurl s) = false ->
  occurs "&" d = false ->
  occurs "#" d = false ->
  queryParams (statusUrl s d) = [ ("host", d); ("all", "done") ].
Proof.
  intros Hq Hf Ha Hh. unfold statusUrl.
  now rewrite (queryParams_host (baseurl s) d "all=done" Hq Hf Ha Hh).
Qed.

Lemma queryParams_startUrl (s : SSLClient) (d : string) (publish : bool) :
  occurs "?" (baseurl s) = false ->
  occurs "#" (baseurl s) = false ->
  occurs "&" d = false ->
  occurs "#" d = false ->
  queryParams (startUrl s d publish)
  = List.app [ ("host", d); ("all", "done"); ("startNew", "on") ]
             (if publish then [ ("publish", "on") ] else []).
Proof.
  intros Hq Hf Ha Hh. rewrite startUrl_eq.
  destruct publish.
  - change ("&all=done&startNew=on" ++ "&publish=on")
      with "&all=done&startNew=on&publish=on".
    now rewrite (queryParams_host (baseurl s) d
                   "all=done&startNew=on&publish=on" Hq Hf Ha Hh).
  - rewrite append_nil_r.
    now rewrite (queryParams_host (baseurl s) d "all=done&startNew=on" Hq Hf Ha Hh).
Qed.

(** What follows a [#] in the domain is a fragment, and with it the fixed
    parameters leave the query. *)
Example fragment_in_domain :
  queryParams (statusUrl NewSSLClient "example.com#x") = [ ("host", "example.com") ].
Proof. reflexivity. Qed.

Lemma proper_prefix_differs (p q : string) : p <> p ++ "&" ++ q.
Proof.
  induction p as [|x p IH]; cbn; [discriminate|].
  intros [= H]. now apply IH.
Qed.

(** C7, counterexample: for the domain [example.com&startNew=on] the
    status request carries the parameters host=example.com, startNew=on
    and all=done: the host parameter is not the domain, and startNew is
    present. *)
Lemma query_parameters_counterexample :
  ~ (forall (d : string) (w : World),
        exists url,
          trace (finalWorld (CheckAssessmentStatus NewSSLClient d w))
          = List.app (trace w) [HttpGet url]
          /\ queryParams url = [ ("host", d); ("all", "done") ]).
Proof.
  intros H.
  destruct (H "example.com&startNew=on" (initial [])) as [url [Ht Hq]].
  cbn in Ht. injection Ht as <-.
  vm_compute in Hq. discriminate Hq.
Qed.

(** ** The query as decoded *)

Lemma unreserved_plain (c : ascii) :
  unreserved c = true ->
  Ascii.eqb c "%" = false /\ Ascii.eqb c "+" = false
  /\ Ascii.eqb c "&" = false /\ Ascii.eqb c "#" = false
  /\ Ascii.eqb c ";" = false /\ Ascii.eqb c "=" = false.
Proof.
  destruct c as [[] [] [] [] [] [] [] []]; vm_compute; intros H;
    try discriminate H; repeat split.
Qed.

Lemma unescape_unreserved (s : string) :
  allUnreserved s = true -> unescape s = Some s.
Proof.
  induction s as [|c s IH]; [reflexivity|].
  cbn [allUnreserved unescape]. intros H.
  apply andb_true_iff in H. destruct H as [Hc Hs].
  destruct (unreserved_plain c Hc) as [H1 [H2 _]].
  now rewrite H1, H2, (IH Hs).
Qed.

Lemma occurs_unreserved (c : ascii) (s : string) :
  (forall a, unreserved a = true -> Ascii.eqb a c = false) ->
  allUnreserved s = true -> occurs c s = false.
Proof.
  intros Hc. induction s as [|a s IH]; [reflexivity|].
  cbn [allUnreserved occurs]. intros H.
  apply andb_true_iff in H. destruct H as [Ha Hs].
  now rewrite (Hc a Ha), (IH Hs).
Qed.

Lemma segments_analyze (base p rest : string) :
  occurs "?" base = false ->
  occurs "#" base = false ->
  occurs "&" p = false ->
  occurs "#" p = false ->
  segments (base ++ "/analyze?host=" ++ p ++ String "&" rest)
  = ("host=" ++ p)
    :: filter (fun seg => negb (seg =? EmptyString)%string)
              (split "&" (fst (cut "#" rest))).
Proof.
  intros Hq Hf Ha Hh. unfold segments.
  rewrite (rawQuery_analyze base _ Hq Hf).
  rewrite (cut_app_free "#" p _ Hh). cbn [fst].
  assert (E : cut "#" (String "&" rest)
              = (String "&" (fst (cut "#" rest)), snd (cut "#" rest))).
  { cbn. now destruct (cut "#" rest). }
  rewrite E. cbn [fst].
  replace ("host=" ++ p ++ String "&" (fst (cut "#" rest)))
    with (("host=" ++ p) ++ String "&" (fst (cut "#" rest)))
    by apply append_assoc.
  rewrite split_app_hit.
  2:{ rewrite occurs_app, Ha. reflexivity. }
  reflexivity.
Qed.

Lemma decodeSegment_host (d : string) :
  allUnreserved d = true -> decodeSegment ("host=" ++ d) = [ ("host", d) ].
Proof.
  intros Hd. unfold decodeSegment.
  assert (Hsemi : occurs ";" ("host=" ++ d) = false).
  { rewrite occurs_app.
    rewrite (occurs_unreserved ";" d); [reflexivity | | exact Hd].
    intros a Ha. apply (unreserved_plain a Ha). }
  rewrite Hsemi.
  replace (keyValue ("host=" ++ d)) with ("host", d) by reflexivity.
  cbn [fst snd]. now rewrite (unescape_unreserved d Hd).
Qed.

Lemma urlValues_analyze (base d rest : string) :
  occurs "?" base = false ->
  occurs "#" base = false ->
  allUnreserved d = true ->
  urlValues (base ++ "/analyze?host=" ++ d ++ String "&" rest)
  = ("host", d)
    :: flat_map decodeSegment
         (filter (fun seg => negb (seg =? EmptyString)%string)
                 (split "&" (fst (cut "#" rest)))).
Proof.
  intros Hq Hf Hd. unfold urlValues.
  rewrite (segments_analyze base d rest Hq Hf).
  - cbn [flat_map]. now rewrite (decodeSegment_host d Hd).
  - apply occurs_unreserved; [|exact Hd].
    intros a Ha. apply (unreserved_plain a Ha).
  - apply occurs_unreserved; [|exact Hd].
    intros a Ha. apply (unreserved_plain a Ha).
Qed.

Example plus_in_domain :
  urlValues (statusUrl NewSSLClient "a+b.com")
  = [ ("host", "a b.com"); ("all", "done") ].
Proof. reflexivity. Qed.

Example escape_in_domain :
  urlValues (statusUrl NewSSLClient "a%26startNew=on")
  = [ ("host", "a&startNew=on"); ("all", "done") ].
Proof. reflexivity. Qed.

(** C7, amended: for a domain made only of letters, digits, [-], [.],
    [_] and [~] (the characters that URL escaping leaves as they are) and
    a base URL without [?] and [#], as the one of NewSSLClient, the
    request of StartAssessment has exactly the query parameters
    host=domain, all=done and startNew=on, followed by publish=on exactly
    when publish is set; the request of CheckAssessmentStatus has exactly
    host=domain and all=done.  This holds of the query as written and as
    decoded. *)
Theorem query_parameters_of_requests
        (s : SSLClient) (d : string) (publish : bool) (w : World) :
  occurs "?" (baseurl s) = false ->
  occurs "#" (baseurl s) = false ->
  allUnreserved d = true ->
  (exists url,
      trace (finalWorld (StartAssessment s d publish w))
      = List.app (trace w) [HttpGet url]
      /\ queryParams url
         = List.app [ ("host", d); ("all", "done"); ("startNew", "on") ]
                    (if publish then [ ("publish", "on") ] else [])
      /\ urlValues url
         = List.app [ ("host", d); ("all", "done"); ("startNew", "on") ]
                    (if publish then [ ("publish", "on") ] else []))
  /\ (exists url,
         trace (finalWorld (CheckAssessmentStatus s d w))
         = List.app (trace w) [HttpGet url]
         /\ queryParams url = [ ("host", d); ("all", "done") ]
         /\ urlValues url = [ ("host", d); ("all", "done") ]).
Proof.
  intros Hq Hf Hd.
  assert (Ha : occurs "&" d = false).
  { apply occurs_unreserved; [|exact Hd].
    intros a Hu. apply (unreserved_plain a Hu). }
  assert (Hh : occurs "#" d = false).
  { apply occurs_unreserved; [|exact Hd].
    intros a Hu. apply (unreserved_plain a Hu). }
  split.
  - exists (startUrl s d publish). split; [apply StartAssessment_trace|].
    split; [now apply queryParams_startUrl|].
    rewrite startUrl_eq. destruct publish.
    + change ("&all=done&startNew=on" ++ "&publish=on")
        with "&all=done&startNew=on&publish=on".
      now rewrite (urlValues_analyze (baseurl s) d
                     "all=done&startNew=on&publish=on" Hq Hf Hd).
    + rewrite append_nil_r.
      now rewrite (urlValues_analyze (baseurl s) d "all=done&startNew=on"
                     Hq Hf Hd).
  - exists (statusUrl s d). split; [apply CheckAssessmentStatus_trace|].
    split; [now apply queryParams_statusUrl|].
    unfold statusUrl.
    now rewrite (urlValues_analyze (baseurl s) d "all=done" Hq Hf Hd).
Qed.

Lemma query_parameters_of_requests_witness :
  (exists url,
      trace (finalWorld (StartAssessment NewSSLClient "example.com" true (initial [])))
      = [HttpGet url]
      /\ queryParams url
         = [ ("host", "example.com"); ("all", "done"); ("startNew", "on");
             ("publish", "on") ]
      /\ urlValues url
         = [ ("host", "example.com"); ("all", "done"); ("startNew", "on");
             ("publish", "on") ])
  /\ (exists url,
         trace (finalWorld (CheckAssessmentStatus NewSSLClient "example.com" (initial [])))
         = [HttpGet url]
         /\ queryParams url = [ ("host", "example.com"); ("all", "done") ]
         /\ urlValues url = [ ("host", "example.com"); ("all", "done") ]).
Proof.
  exact (query_parameters_of_requests NewSSLClient "example.com" true (initial [])
           eq_refl eq_refl eq_refl).
Defined.

(** C10: the domain is spliced into the URL as it is.  The request of
    StartAssessment is the base URL followed by [/analyze?host=], the
    domain, [&all=done&startNew=on] and, when publish is set,
    [&publish=on]; the one of CheckAssessmentStatus ends after
    [&all=done].  So a domain [p&q] changes the query: its host parameter
    is [p], not the domain. *)
Theorem domain_spliced_verbatim
        (s : SSLClient) (d : string) (publish : bool) (w : World) :
  trace (finalWorld (StartAssessment s d publish w))
  = List.app (trace w)
      [HttpGet (baseurl s ++ "/analyze?host=" ++ d ++ "&all=done&startNew=on"
                ++ (if publish then "&publish=on" else EmptyString))]
  /\ trace (finalWorld (CheckAssessmentStatus s d w))
     = List.app (trace w)
         [HttpGet (baseurl s ++ "/analyze?host=" ++ d ++ "&all=done")]
  /\ (forall p q : string,
         d = p ++ "&" ++ q ->
         occurs "?" (baseurl s) = false ->
         occurs "#" (baseurl s) = false ->
         occurs "&" p = false ->
         occurs "#" p = false ->
         hd_error (queryParams (baseurl s ++ "/analyze?host=" ++ d ++ "&all=done"))
         = Some ("host", p)
         /\ p <> d).
Proof.
  split; [|split].
  - rewrite StartAssessment_trace. now rewrite startUrl_eq.
  - apply CheckAssessmentStatus_trace.
  - intros p q -> Hq Hf Ha Hh. split; [|apply proper_prefix_differs].
    replace ((p ++ "&" ++ q) ++ "&all=done")
      with (p ++ String "&" (q ++ "&all=done")).
    2:{ rewrite append_assoc. reflexivity. }
    now rewrite (queryParams_host (baseurl s) p _ Hq Hf Ha Hh).
Qed.

Lemma domain_spliced_verbatim_witness :
  hd_error (queryParams
              ("https://api.ssllabs.com/api/v2/analyze?host="
               ++ "example.com&startNew=on" ++ "&all=done"))
  = Some ("host", "example.com")
  /\ "example.com" <> "example.com&startNew=on".
Proof.
  destruct (domain_spliced_verbatim NewSSLClient "example.com&startNew=on"
              false (initial [])) as [_ [_ H]].
  exact (H "example.com" "startNew=on" eq_refl eq_refl eq_refl eq_refl eq_refl).
Defined.

(** * Further properties *)

(** ** Computations confined to some events *)

Lemma confined_weaken {A} (P Q : Event -> Prop) (m : IO A) :
  (forall e, P e -> Q e) -> confined P m -> confined Q m.
Proof.
  intros HPQ Hm w. destruct (Hm w) as [t [Ht HP]].
  exists t. split; [exact Ht|]. revert HP. apply Forall_impl. exact HPQ.
Qed.

Lemma confined_ret {A} (P : Event -> Prop) (a : A) : confined P (ret a).
Proof. intros w. exists []. cbn. now rewrite app_nil_r. Qed.

Lemma confined_bind {A B} (P : Event -> Prop) (m : IO A) (k : A -> IO B) :
  confined P m -> (forall a, confined P (k a)) -> confined P (bind m k).
Proof.
  intros Hm Hk w. unfold bind.
  destruct (Hm w) as [t1 [Ht1 HP1]].
  destruct (m w) as [a w1|p w1|c w1|w1]; try (exists t1; now split).
  cbn [finalWorld] in Ht1.
  destruct (Hk a w1) as [t2 [Ht2 HP2]].
  exists (t1 ++ t2)%list. split.
  - now rewrite Ht2, Ht1, app_assoc.
  - apply Forall_app. now split.
Qed.

Lemma confined_emit (P : Event -> Prop) (e : Event) :
  P e -> confined P (fun w => Returned tt (emit e w)).
Proof.
  intros He w. exists [e]. split; [reflexivity|].
  constructor; [exact He | constructor].
Qed.

Lemma confined_Printf (P : Event -> Prop) (text : string) :
  P (Stdout text) -> confined P (Printf text).
Proof. apply confined_emit. Qed.

Lemma confined_os_Exit {A} (P : Event -> Prop) (code : Z) :
  confined P (@os_Exit A code).
Proof. intros w. exists []. cbn. now rewrite app_nil_r. Qed.

Lemma confined_index {A} (P : Event -> Prop) (l : list A) (k : Z) :
  confined P (index l k).
Proof.
  intros w. exists []. rewrite app_nil_r. split; [|constructor].
  unfold index.
  destruct ((0 <=? k) && (k <? len l)); [|reflexivity].
  destruct (nth_error l (Z.to_nat k)); reflexivity.
Qed.

Lemma confined_http_Get (P : Event -> Prop) (url : string) :
  P (HttpGet url) -> confined P (http_Get url).
Proof.
  intros He w. exists [HttpGet url]. split.
  - unfold http_Get. destruct (script w); reflexivity.
  - constructor; [exact He | constructor].
Qed.

Lemma confined_if {A} (P : Event -> Prop) (b : bool) (m1 m2 : IO A) :
  confined P m1 -> confined P m2 -> confined P (if b then m1 else m2).
Proof. now destruct b. Qed.

Ltac confine :=
  repeat first
    [ apply confined_index
    | apply confined_ret
    | apply confined_os_Exit
    | apply confined_Printf; exact I
    | apply confined_bind; [|intros ?]
    | apply confined_if
    | match goal with |- confined _ (match ?x with _ => _ end) => destruct x end ].

Lemma confined_trackProgress (host : Host.t) (c : Locals) :
  confined isStdout (trackProgress host c).
Proof. unfold trackProgress. confine. Qed.

Lemma confined_rangeFrom (l : list Endpoint.t) :
  forall k, confined isStdout (rangeFrom k l printEndpoint).
Proof.
  induction l as [|e l IH]; intros k; cbn [rangeFrom].
  - apply confined_ret.
  - apply confined_bind; [|intros _; apply IH].
    unfold printEndpoint, Println. confine.
Qed.

Lemma confined_displayResults (host : Host.t) :
  confined isStdout (displayResults host).
Proof.
  unfold displayResults.
  repeat (apply confined_bind; [apply confined_Printf; exact I | intros _]).
  repeat apply confined_if.
  - apply confined_bind.
    + intros w. exists []. cbn. rewrite app_nil_r. now split.
    + intros t. apply confined_bind; [apply confined_Printf; exact I|].
      intros _. apply confined_rangeFrom.
  - apply confined_Printf. exact I.
  - apply confined_ret.
Qed.

Lemma confined_time_Sleep (P : Event -> Prop) (seconds : Z) :
  P (Sleep seconds) -> confined P (time_Sleep seconds).
Proof. apply confined_emit. Qed.

Lemma confined_CheckAssessmentStatus (P : Event -> Prop) (s : SSLClient)
      (d : string) :
  P (HttpGet (statusUrl s d)) -> confined P (CheckAssessmentStatus s d).
Proof.
  intros HP. unfold CheckAssessmentStatus.
  apply confined_bind; [now apply confined_http_Get|].
  intros r. confine.
Qed.

Lemma confined_StartAssessment (P : Event -> Prop) (s : SSLClient)
      (d : string) (publish : bool) :
  P (HttpGet (startUrl s d publish)) -> confined P (StartAssessment s d publish).
Proof.
  intros HP. unfold StartAssessment.
  apply confined_bind; [now apply confined_http_Get|].
  intros r. confine.
Qed.

Lemma confined_CheckApiStatus (P : Event -> Prop) (s : SSLClient) :
  P (HttpGet (baseurl s ++ "/info")) ->
  (forall text, P (Stdout text)) ->
  confined P (CheckApiStatus s).
Proof.
  intros HP Hout. unfold CheckApiStatus.
  apply confined_bind; [now apply confined_http_Get|].
  intros r. destruct r as [err|resp]; [apply confined_ret|].
  apply confined_if; [apply confined_ret|].
  destruct (io_ReadAll (RespBody resp)) as [body|err]; [|apply confined_ret].
  destruct (json_Unmarshal_Info body) as [info|err]; [|apply confined_ret].
  unfold Println.
  repeat (apply confined_bind; [apply confined_Printf; apply Hout | intros _]).
  apply confined_ret.
Qed.

Lemma confined_pollStep (s : SSLClient) (d : string) (c : Locals) :
  confined (pollEvent s d) (pollStep s d c).
Proof.
  unfold pollStep.
  apply confined_bind; [now apply confined_CheckAssessmentStatus|].
  intros r. destruct r as [host|err]; [|apply confined_ret].
  apply confined_bind.
  { apply (confined_weaken isStdout); [|apply confined_trackProgress].
    now intros []. }
  intros c'. unfold Println.
  apply confined_bind; [apply confined_index|]. intros e.
  apply confined_bind; [apply confined_Printf; exact I|]. intros _.
  apply confined_if.
  - confine.
  - apply confined_bind; [now apply confined_time_Sleep|].
    intros _. apply confined_ret.
Qed.

Lemma confined_pollLoop (s : SSLClient) (d : string) (fuel : nat) :
  forall c, confined (pollEvent s d) (pollLoop fuel s d c).
Proof.
  induction fuel as [|fuel IH]; intros c; cbn [pollLoop].
  - intros w. exists []. cbn. rewrite app_nil_r. now split.
  - apply confined_bind; [apply confined_pollStep|].
    intros [c'|res]; [apply IH | apply confined_ret].
Qed.

Lemma confined_WaitForAssessment (s : SSLClient) (d : string) :
  confined (pollEvent s d) (WaitForAssessment s d).
Proof.
  unfold WaitForAssessment, Println.
  apply confined_bind; [apply confined_Printf; exact I|].
  intros _ w. apply confined_pollLoop.
Qed.

(** X1: whatever the service answers, and however the call ends,
    WaitForAssessment only adds to the trace, and what it adds is output,
    requests to the status URL of its domain, and pauses of ten seconds:
    it requests no other URL and pauses for no other duration. *)
Theorem WaitForAssessment_events (s : SSLClient) (d : string) (w : World) :
  exists t : list Event,
    trace (finalWorld (WaitForAssessment s d w)) = List.app (trace w) t
    /\ Forall (eq (statusUrl s d)) (requests t)
    /\ Forall (eq 10) (sleeps t).
Proof.
  destruct (confined_WaitForAssessment s d w) as [t [Ht HP]].
  exists t. split; [exact Ht|]. clear Ht.
  induction HP as [|e t He HP IH]; [split; constructor|].
  destruct IH as [IHr IHs].
  destruct e as [url|text| |n];
    cbn [pollEvent] in He; cbn [requests sleeps flat_map app];
    try (now split).
  - fold (requests t). split; [constructor; [now symmetry | exact IHr] | exact IHs].
  - fold (sleeps t). split; [exact IHr | constructor; [now symmetry | exact IHs]].
Qed.

(** X2: displayResults always returns normally and does nothing but
    print: three lines for a status other than READY and ERROR, four for
    ERROR (the endpoints are not shown), and for READY four lines and six
    more for each endpoint. *)
Theorem displayResults_only_prints (host : Host.t) (w : World) :
  exists lines : list string,
    displayResults host w = Returned tt (prints lines w)
    /\ List.length lines
       = if (Host.Status host =? "READY")%string
         then (4 + 6 * List.length (Host.Endpoints host))%nat
         else if (Host.Status host =? "ERROR")%string then 4%nat else 3%nat.
Proof.
  destruct (Host.Status host =? "READY")%string eqn:R.
  - apply String.eqb_eq in R. eexists.
    split; [now apply displayResults_READY|].
    rewrite length_app. cbn [List.length]. f_equal.
    generalize 1 as k.
    induction (Host.Endpoints host) as [|e l IH]; intros k; [reflexivity|].
    cbn [endpointBlocks]. rewrite length_app, IH. cbn [List.length endpointBlock].
    lia.
  - destruct (Host.Status host =? "ERROR")%string eqn:E.
    + apply String.eqb_eq in E. eexists.
      split; [now apply displayResults_ERROR | reflexivity].
    + eexists. split;
        [apply displayResults_other; unfold terminal; now rewrite R, E
        | reflexivity].
Qed.

Lemma confined_afterWait (args : Flags) (r : result Host.t) :
  confined (runEvent args) (afterWait r).
Proof.
  destruct r as [host|err]; cbn [afterWait].
  - apply (confined_weaken isStdout); [|apply confined_displayResults].
    now intros [].
  - confine.
Qed.

Lemma confined_main (args : Flags) : confined (runEvent args) (main args).
Proof.
  assert (Hwait : confined (runEvent args)
                    (WaitForAssessment NewSSLClient (domain args))).
  { apply (confined_weaken (pollEvent NewSSLClient (domain args)));
      [|apply confined_WaitForAssessment].
    intros [url| | |n]; cbn; auto. }
  unfold main, Println.
  apply confined_bind.
  { apply confined_if; [|apply confined_ret].
    repeat (apply confined_bind; [apply confined_Printf; exact I | intros _]).
    apply confined_bind; [now apply confined_emit | intros _].
    apply confined_os_Exit. }
  intros _. apply confined_bind.
  { apply confined_CheckApiStatus; [now left | now intros]. }
  intros r. apply confined_bind; [confine|]. intros info.
  apply confined_bind; [confine|]. intros _.
  repeat (apply confined_bind; [apply confined_Printf; exact I | intros _]).
  apply confined_bind.
  { apply confined_StartAssessment. right. now left. }
  intros r2. apply confined_bind; [confine|]. intros host.
  apply confined_bind; [apply confined_Printf; exact I | intros _].
  apply confined_bind.
  - apply confined_if; [|apply confined_ret].
    apply confined_bind; [exact Hwait|]. intros r3. confine.
  - intros host'.
    apply (confined_weaken isStdout); [|apply confined_displayResults].
    now intros [].
Qed.

(** X3: a run of main, whatever the flags and the answers of the
    service, only adds to the trace; the only URLs it requests are the
    /info URL, the start URL and the status URL of the domain given on
    the command line, and it pauses for ten seconds only. *)
Theorem main_events (args : Flags) (w : World) :
  exists t : list Event,
    trace (finalWorld (main args w)) = List.app (trace w) t
    /\ Forall (fun url =>
                 url = "https://api.ssllabs.com/api/v2/info"
                 \/ url = startUrl NewSSLClient (domain args) (publish args)
                 \/ url = statusUrl NewSSLClient (domain args))
              (requests t)
    /\ Forall (eq 10) (sleeps t).
Proof.
  destruct (confined_main args w) as [t [Ht HP]].
  exists t. split; [exact Ht|]. clear Ht.
  induction HP as [|e t He HP IH]; [split; constructor|].
  destruct IH as [IHr IHs].
  destruct e as [url|text| |n];
    cbn [runEvent] in He; cbn [requests sleeps flat_map app];
    try (now split).
  - fold (requests t). split; [constructor; [exact He | exact IHr] | exact IHs].
  - fold (sleeps t). split; [exact IHr | constructor; [now symmetry | exact IHs]].
Qed.

(** ** Output in a trace *)

Lemma output_app (t1 t2 : list Event) :
  output (t1 ++ t2)%list = (output t1 ++ output t2)%list.
Proof. unfold output. apply flat_map_app. Qed.

Lemma output_Stdout (lines : list string) : output (map Stdout lines) = lines.
Proof. induction lines as [|x l IH]; [reflexivity | cbn; now f_equal]. Qed.

Lemma output_prints (lines : list string) (w : World) :
  output (trace (prints lines w)) = (output (trace w) ++ lines)%list.
Proof. unfold prints. cbn [trace]. now rewrite output_app, output_Stdout. Qed.

Lemma output_answered_request (rest : list GetResult) (url : string) (w : World) :
  output (trace (answered rest (emit (HttpGet url) w))) = output (trace w).
Proof. cbn [answered emit trace]. rewrite output_app. cbn. apply app_nil_r. Qed.

Lemma sleeps_app (t1 t2 : list Event) :
  sleeps (t1 ++ t2)%list = (sleeps t1 ++ sleeps t2)%list.
Proof. unfold sleeps. apply flat_map_app. Qed.

Lemma sleeps_Stdout (lines : list string) : sleeps (map Stdout lines) = [].
Proof. induction lines as [|x l IH]; [reflexivity | exact IH]. Qed.

Lemma sleeps_prints (lines : list string) (w : World) :
  sleeps (trace (prints lines w)) = sleeps (trace w).
Proof.
  unfold prints. cbn [trace]. now rewrite sleeps_app, sleeps_Stdout, app_nil_r.
Qed.

Lemma sleeps_emit (e : Event) (w : World) :
  sleeps (trace (emit e w)) = (sleeps (trace w) ++ sleeps [e])%list.
Proof. unfold emit. cbn [trace]. apply sleeps_app. Qed.

(** ** The transport operations, answer by answer *)

(** X4: CheckApiStatus gives a record only for a response with status
    200 whose body decodes, and then it has printed the four status
    lines; when it gives an error it has printed nothing.  Either way it
    has read exactly one answer of the service. *)
Theorem CheckApiStatus_result (s : SSLClient) (w w' : World)
        (r : result Info.t) :
  CheckApiStatus s w = Returned r w' ->
  exists (x : GetResult),
    script w = x :: script w'
    /\ match r with
       | Err _ => output (trace w') = output (trace w)
       | Ok info =>
           (exists resp doc,
               x = GetOk resp /\ StatusCode resp = 200
               /\ RespBody resp = Readable doc /\ asInfo doc = Ok info)
           /\ output (trace w')
              = List.app (output (trace w))
                  [ "SSL Labs API is reachable." ++ nl;
                    "Criteria Version: " ++ Info.CriteriaVersion info ++ nl;
                    "Concurrent assessments allowed: "
                    ++ fmt_d (Info.MaxAssessments info) ++ nl;
                    "Current assessments: "
                    ++ fmt_d (Info.CurrentAssessments info) ++ nl ]
       end.
Proof.
  unfold CheckApiStatus, bind at 1. unfold http_Get.
  destruct (script w) as [|x rest] eqn:Hs; [discriminate|].
  intros H. exists x.
  destruct x as [err|resp].
  { cbv [ret] in H. injection H as <- <-.
    split; [reflexivity | apply output_answered_request]. }
  destruct (StatusCode resp =? http_StatusOK) eqn:Hc; cbn [negb] in H.
  2:{ cbv [ret] in H. injection H as <- <-.
      split; [reflexivity | apply output_answered_request]. }
  apply Z.eqb_eq in Hc.
  destruct (RespBody resp) as [err|doc] eqn:Hb; cbn [io_ReadAll] in H.
  { cbv [ret] in H. injection H as <- <-.
    split; [reflexivity | apply output_answered_request]. }
  unfold json_Unmarshal_Info in H.
  destruct (asInfo doc) as [info|err] eqn:Hd.
  2:{ cbv [ret] in H. injection H as <- <-.
      split; [reflexivity | apply output_answered_request]. }
  unfold Println in H. rewrite !bind_Printf in H. cbv [ret] in H.
  injection H as <- <-. split; [reflexivity|]. split.
  - now exists resp, doc.
  - rewrite <- (output_answered_request rest (baseurl s ++ "/info") w).
    set (w1 := answered rest (emit (HttpGet (baseurl s ++ "/info")) w)).
    rewrite <- output_prints. now rewrite !prints_cons, prints_nil.
Qed.

Lemma CheckApiStatus_result_witness :
  exists x,
    [infoResponse (sampleInfo 20 3)] = [x]
    /\ exists resp doc,
         x = GetOk resp /\ StatusCode resp = 200
         /\ RespBody resp = Readable doc /\ asInfo doc = Ok (sampleInfo 20 3).
Proof.
  pose proof (CheckApiStatus_decoded NewSSLClient
                (initial [infoResponse (sampleInfo 20 3)])
                (infoReply (sampleInfo 20 3)) []
                (infoDocument (sampleInfo 20 3)) (sampleInfo 20 3)
                eq_refl eq_refl eq_refl eq_refl) as Hc.
  destruct (CheckApiStatus_result _ _ _ _ Hc) as [x [Hs [Hx _]]].
  exists x. split; [exact Hs | exact Hx].
Defined.

(** X5: StartAssessment always returns once the service has answered,
    having read that one answer and printed nothing.  It gives the
    decoded snapshot when the body is readable and decodes, and otherwise
    an error that says which step failed: the request, the reading of the
    body, or the decoding. *)
Theorem StartAssessment_result (s : SSLClient) (d : string) (publish : bool)
        (w : World) (r : GetResult) (rest : list GetResult) :
  script w = r :: rest ->
  exists res : result Host.t,
    StartAssessment s d publish w
    = Returned res (answered rest (emit (HttpGet (startUrl s d publish)) w))
    /\ match r with
       | GetErr err => res = Err ("failed to start assessment: " ++ err)
       | GetOk resp =>
           match RespBody resp with
           | Unreadable err =>
               res = Err ("failed to read assessment response: " ++ err)
           | Readable doc =>
               match asHost doc with
               | Err err =>
                   res = Err ("failed to parse assessment response: " ++ err)
               | Ok host => res = Ok host
               end
           end
       end.
Proof.
  intros Hs. unfold StartAssessment.
  rewrite (bind_Returned _ _ _ _ _ (http_Get_answered _ _ _ _ Hs)).
  destruct r as [err|resp]; [eexists; split; reflexivity|].
  destruct (RespBody resp) as [err|doc]; cbn [io_ReadAll];
    [eexists; split; reflexivity|].
  unfold json_Unmarshal_Host.
  destruct (asHost doc) as [host|err]; eexists; split; reflexivity.
Qed.

Lemma StartAssessment_result_witness :
  exists res,
    StartAssessment NewSSLClient "example.com" true
                    (initial [GetErr "dial tcp: i/o timeout"])
    = Returned res
        (answered []
           (emit (HttpGet (startUrl NewSSLClient "example.com" true))
                 (initial [GetErr "dial tcp: i/o timeout"])))
    /\ res = Err "failed to start assessment: dial tcp: i/o timeout".
Proof.
  exact (StartAssessment_result NewSSLClient "example.com" true
           (initial [GetErr "dial tcp: i/o timeout"])
           (GetErr "dial tcp: i/o timeout") [] eq_refl).
Defined.

(** X6: CheckAssessmentStatus always returns once the service has
    answered, having read that one answer and printed nothing.  It gives
    the decoded snapshot when the body is readable and decodes, and
    otherwise an error that says which step failed. *)
Theorem CheckAssessmentStatus_result (s : SSLClient) (d : string)
        (w : World) (r : GetResult) (rest : list GetResult) :
  script w = r :: rest ->
  exists res : result Host.t,
    CheckAssessmentStatus s d w
    = Returned res (answered rest (emit (HttpGet (statusUrl s d)) w))
    /\ match r with
       | GetErr err => res = Err ("failed to check assessment status: " ++ err)
       | GetOk resp =>
           match RespBody resp with
           | Unreadable err =>
               res = Err ("failed to read assessment status response: " ++ err)
           | Readable doc =>
               match asHost doc with
               | Err err =>
                   res = Err ("failed to parse assessment status response: "
                              ++ err)
               | Ok host => res = Ok host
               end
           end
       end.
Proof.
  intros Hs. unfold CheckAssessmentStatus.
  rewrite (bind_Returned _ _ _ _ _ (http_Get_answered _ _ _ _ Hs)).
  destruct r as [err|resp]; [eexists; split; reflexivity|].
  destruct (RespBody resp) as [err|doc]; cbn [io_ReadAll];
    [eexists; split; reflexivity|].
  unfold json_Unmarshal_Host.
  destruct (asHost doc) as [host|err]; eexists; split; reflexivity.
Qed.

Lemma CheckAssessmentStatus_result_witness :
  exists res,
    CheckAssessmentStatus NewSSLClient "example.com"
      (initial [GetOk {| StatusCode := 200; Status := "200 OK";
                         RespBody := Unreadable "unexpected EOF" |}])
    = Returned res
        (answered []
           (emit (HttpGet (statusUrl NewSSLClient "example.com"))
                 (initial [GetOk {| StatusCode := 200; Status := "200 OK";
                                    RespBody := Unreadable "unexpected EOF" |}])))
    /\ res = Err "failed to read assessment status response: unexpected EOF".
Proof.
  exact (CheckAssessmentStatus_result NewSSLClient "example.com"
           (initial [GetOk {| StatusCode := 200; Status := "200 OK";
                              RespBody := Unreadable "unexpected EOF" |}])
           (GetOk {| StatusCode := 200; Status := "200 OK";
                     RespBody := Unreadable "unexpected EOF" |}) [] eq_refl).
Defined.

(** ** The progress display, step by step *)

(** X7: with the cursor inside the snapshot the progress display returns
    with the flag set and the cursor still inside.  The cursor stays or
    moves on by one, and it moves only past an endpoint at 100%; the
    header counter stays or grows by one, and it grows only while it does
    not exceed the number of endpoints. *)
Theorem trackProgress_step (host : Host.t) (c : Locals) (w : World)
        (e : Endpoint.t) :
  0 <= i c ->
  nth_error (Host.Endpoints host) (Z.to_nat (i c)) = Some e ->
  exists (c' : Locals) (lines : list string),
    trackProgress host c w = Returned c' (prints lines w)
    /\ flag c' = true
    /\ 0 <= i c' < len (Host.Endpoints host)
    /\ (i c' = i c \/ (i c' = i c + 1 /\ Endpoint.Progress e = 100))
    /\ (endpoint c' = endpoint c
        \/ (endpoint c' = endpoint c + 1
            /\ endpoint c <= len (Host.Endpoints host))).
Proof.
  intros Hpos Hnth.
  assert (Hi : 0 <= i c < len (Host.Endpoints host)).
  { split; [exact Hpos|].
    assert (Z.to_nat (i c) < List.length (Host.Endpoints host))%nat
      by (apply nth_error_Some; congruence).
    unfold len. lia. }
  assert (He : forall w0, index (Host.Endpoints host) (i c) w0 = Returned e w0).
  { intros w0. destruct (index_in_range _ _ w0 Hi) as [e' [Hn' He']].
    congruence. }
  unfold trackProgress.
  assert (Hbody : exists c' lines,
    (e0 <- index (Host.Endpoints host) (i c) ;;
     i' <- (if Endpoint.Progress e0 =? 100 then
              Printf (progressLine host e0) ;;
              ret (if i c + 1 <? len (Host.Endpoints host) then i c + 1 else i c)
            else ret (i c)) ;;
     endpoint' <- (if endpoint c <? len (Host.Endpoints host) + 1 then
                     Printf (headerLine (endpoint c)) ;;
                     ret (endpoint c + 1)
                   else ret (endpoint c)) ;;
     ret {| i := i'; endpoint := endpoint'; flag := true |}) w
    = Returned c' (prints lines w)
    /\ flag c' = true
    /\ 0 <= i c' < len (Host.Endpoints host)
    /\ (i c' = i c \/ (i c' = i c + 1 /\ Endpoint.Progress e = 100))
    /\ (endpoint c' = endpoint c
        \/ (endpoint c' = endpoint c + 1
            /\ endpoint c <= len (Host.Endpoints host)))).
  { rewrite (bind_Returned _ _ _ _ _ (He w)).
    destruct (Endpoint.Progress e =? 100) eqn:P;
      [apply Z.eqb_eq in P|];
      (destruct (endpoint c <? len (Host.Endpoints host) + 1) eqn:H;
       [apply Z.ltb_lt in H|]);
      (destruct (i c + 1 <? len (Host.Endpoints host)) eqn:E;
       [apply Z.ltb_lt in E|]);
      eexists;
      (match goal with
       | |- context [headerLine] =>
           match goal with
           | |- context [progressLine] =>
               exists [progressLine host e; headerLine (endpoint c)]
           | _ => exists [headerLine (endpoint c)]
           end
       | |- context [progressLine] => exists [progressLine host e]
       | _ => exists []
       end);
      (split;
       [cbv [bind ret Printf]; rewrite ?prints_cons, ?prints_nil; reflexivity
       | cbn [i endpoint flag]; repeat split; try reflexivity; lia]). }
  destruct (flag c) eqn:F; cbn [negb].
  - rewrite (bind_Returned _ _ w w (Endpoint.Progress e =? 100)).
    2:{ now rewrite (bind_Returned _ _ _ _ _ (He w)). }
    destruct (Endpoint.Progress e =? 100) eqn:P.
    + exact Hbody.
    + exists c, []. rewrite prints_nil.
      repeat split; try assumption; try lia; now left.
  - rewrite (bind_Returned _ _ w w true eq_refl). exact Hbody.
Qed.

Lemma trackProgress_step_witness :
  let host := sampleHost "IN_PROGRESS" [sampleEndpoint "93.184.216.34" 100;
                                        sampleEndpoint "93.184.216.35" 40] in
  exists (c' : Locals) (lines : list string),
    trackProgress host {| i := 0; endpoint := 1; flag := false |} (initial [])
    = Returned c' (prints lines (initial []))
    /\ flag c' = true
    /\ 0 <= i c' < 2
    /\ (i c' = 0 \/ (i c' = 0 + 1 /\ 100 = 100))
    /\ (endpoint c' = 1 \/ (endpoint c' = 1 + 1 /\ 1 <= 2)).
Proof.
  intros host.
  exact (trackProgress_step host {| i := 0; endpoint := 1; flag := false |}
           (initial []) (sampleEndpoint "93.184.216.34" 100)
           ltac:(cbn; lia) eq_refl).
Defined.

Section Iteration.

(** The next answer of the service, to a status request for [d], decodes
    to the snapshot [host]; the endpoint under the cursor is [e]. *)
Variables (s : SSLClient) (d : string).
Variables (resp : Response) (rest : list GetResult).
Variables (doc : Document) (host : Host.t).
Hypothesis Hbody : RespBody resp = Readable doc.
Hypothesis Hhost : asHost doc = Ok host.

Local Abbreviation polled w := (answered rest (emit (HttpGet (statusUrl s d)) w)).

Lemma index_nth (c : Locals) (e : Endpoint.t) (w : World) :
  0 <= i c ->
  nth_error (Host.Endpoints host) (Z.to_nat (i c)) = Some e ->
  0 <= i c < len (Host.Endpoints host)
  /\ index (Host.Endpoints host) (i c) w = Returned e w.
Proof.
  intros Hpos Hnth.
  assert (Hi : 0 <= i c < len (Host.Endpoints host)).
  { split; [exact Hpos|].
    assert (Z.to_nat (i c) < List.length (Host.Endpoints host))%nat
      by (apply nth_error_Some; congruence).
    unfold len. lia. }
  split; [exact Hi|].
  destruct (index_in_range _ _ w Hi) as [e' [Hn' He']]. congruence.
Qed.

(** X8: one iteration with the cursor inside the snapshot never panics.
    It returns the snapshot unchanged, after an empty line, exactly when
    the status is READY or ERROR; for any other status it pauses ten
    seconds and goes on with the cursor still inside. *)
Theorem pollStep_contract (c : Locals) (w : World) :
  script w = GetOk resp :: rest ->
  0 <= i c < len (Host.Endpoints host) ->
  exists (c' : Locals) (lines : list string),
    0 <= i c' < len (Host.Endpoints host)
    /\ pollStep s d c w
       = if terminal (Host.Status host)
         then Returned (inr (Ok host)) (prints (List.app lines [nl]) (polled w))
         else Returned (inl c') (emit (Sleep 10) (prints lines (polled w))).
Proof.
  intros Hs Hi.
  destruct (pollStep_in_range s d resp rest doc host Hbody Hhost c w Hs Hi)
    as [c' [lines [Hi' [_ Hstep]]]].
  exists c', lines. split; [exact Hi'|]. rewrite Hstep.
  destruct (terminal (Host.Status host)); [|reflexivity].
  now rewrite prints_app, prints_cons, prints_nil.
Qed.

(** X9: once the flag is set, a poll that finds the endpoint under the
    cursor below 100% prints exactly one progress line, for that endpoint,
    and leaves the loop's locals as they were. *)
Theorem pollStep_quiet (c : Locals) (e : Endpoint.t) (w : World) :
  script w = GetOk resp :: rest ->
  flag c = true ->
  0 <= i c ->
  nth_error (Host.Endpoints host) (Z.to_nat (i c)) = Some e ->
  Endpoint.Progress e <> 100 ->
  terminal (Host.Status host) = false ->
  pollStep s d c w
  = Returned (inl c)
      (emit (Sleep 10) (prints [progressLine host e] (polled w))).
Proof.
  intros Hs Hf Hpos Hnth Hp Ht. unfold pollStep.
  rewrite (bind_Returned _ _ _ _ _
             (CheckAssessmentStatus_decoded s d w resp rest doc host
                Hs Hbody Hhost)).
  assert (Htrack : trackProgress host c (polled w) = Returned c (polled w)).
  { unfold trackProgress. rewrite Hf. cbn [negb].
    destruct (index_nth c e (polled w) Hpos Hnth) as [_ He].
    rewrite (bind_Returned _ _ (polled w) (polled w) (Endpoint.Progress e =? 100)).
    2:{ now rewrite (bind_Returned _ _ _ _ _ He). }
    apply Z.eqb_neq in Hp. now rewrite Hp. }
  rewrite (bind_Returned _ _ _ _ _ Htrack).
  destruct (index_nth c e (polled w) Hpos Hnth) as [_ He].
  rewrite (bind_Returned _ _ _ _ _ He).
  rewrite bind_Printf, Ht. cbv [bind time_Sleep ret].
  now rewrite prints_cons, prints_nil.
Qed.

(** X10: when the last endpoint has reached 100% and every header has
    been printed, each further poll prints the progress line of that
    endpoint twice (lines 151 and 162) and leaves the locals as they
    were. *)
Theorem pollStep_repeats_finished_endpoint
        (c : Locals) (e : Endpoint.t) (w : World) :
  script w = GetOk resp :: rest ->
  flag c = true ->
  0 <= i c ->
  nth_error (Host.Endpoints host) (Z.to_nat (i c)) = Some e ->
  Endpoint.Progress e = 100 ->
  i c + 1 = len (Host.Endpoints host) ->
  endpoint c > len (Host.Endpoints host) ->
  terminal (Host.Status host) = false ->
  pollStep s d c w
  = Returned (inl c)
      (emit (Sleep 10)
         (prints [progressLine host e; progressLine host e] (polled w))).
Proof.
  intros Hs Hf Hpos Hnth Hp Hlast Hend Ht. unfold pollStep.
  rewrite (bind_Returned _ _ _ _ _
             (CheckAssessmentStatus_decoded s d w resp rest doc host
                Hs Hbody Hhost)).
  assert (Htrack : trackProgress host c (polled w)
                   = Returned c (prints [progressLine host e] (polled w))).
  { unfold trackProgress. rewrite Hf. cbn [negb].
    destruct (index_nth c e (polled w) Hpos Hnth) as [_ He].
    rewrite (bind_Returned _ _ (polled w) (polled w) (Endpoint.Progress e =? 100)).
    2:{ now rewrite (bind_Returned _ _ _ _ _ He). }
    rewrite Hp, Z.eqb_refl.
    rewrite (bind_Returned _ _ _ _ _ He).
    rewrite Hp, Z.eqb_refl.
    assert (E1 : (i c + 1 <? len (Host.Endpoints host)) = false)
      by (apply Z.ltb_ge; lia).
    assert (E2 : (endpoint c <? len (Host.Endpoints host) + 1) = false)
      by (apply Z.ltb_ge; lia).
    rewrite E1, E2. cbv [bind ret Printf].
    rewrite prints_cons, prints_nil.
    destruct c as [ci ce cf]. cbn in Hf |- *. now rewrite Hf. }
  rewrite (bind_Returned _ _ _ _ _ Htrack).
  destruct (index_nth c e (prints [progressLine host e] (polled w)) Hpos Hnth)
    as [_ He].
  rewrite (bind_Returned _ _ _ _ _ He).
  rewrite bind_Printf, Ht. cbv [bind time_Sleep ret].
  now rewrite !prints_cons, !prints_nil.
Qed.

(** X11: the first iteration, on a snapshot whose first endpoint is below
    100%, prints the header of endpoint 1 and then the progress line of
    that endpoint, and goes on with the cursor on it and the header
    counter at 2. *)
Theorem pollStep_first (e : Endpoint.t) (others : list Endpoint.t) (w : World) :
  script w = GetOk resp :: rest ->
  Host.Endpoints host = e :: others ->
  Endpoint.Progress e <> 100 ->
  terminal (Host.Status host) = false ->
  pollStep s d {| i := 0; endpoint := 1; flag := false |} w
  = Returned (inl {| i := 0; endpoint := 2; flag := true |})
      (emit (Sleep 10)
         (prints [headerLine 1; progressLine host e] (polled w))).
Proof.
  intros Hs He Hp Ht. unfold pollStep.
  rewrite (bind_Returned _ _ _ _ _
             (CheckAssessmentStatus_decoded s d w resp rest doc host
                Hs Hbody Hhost)).
  apply Z.eqb_neq in Hp.
  assert (E : (1 <? len (Host.Endpoints host) + 1) = true).
  { apply Z.ltb_lt. rewrite He. unfold len. cbn [List.length]. lia. }
  assert (Hidx : forall w0, index (Host.Endpoints host) 0 w0 = Returned e w0).
  { intros w0.
    apply (index_nth {| i := 0; endpoint := 1; flag := false |});
      cbn [i]; [lia | now rewrite He]. }
  assert (Htrack : trackProgress host {| i := 0; endpoint := 1; flag := false |}
                                 (polled w)
                   = Returned {| i := 0; endpoint := 2; flag := true |}
                              (prints [headerLine 1] (polled w))).
  { unfold trackProgress. cbn [flag negb i endpoint].
    rewrite (bind_Returned _ _ (polled w) (polled w) true eq_refl).
    rewrite (bind_Returned _ _ _ _ _ (Hidx (polled w))).
    rewrite Hp, E.
    cbv [bind ret Printf]. now rewrite prints_cons, prints_nil. }
  rewrite (bind_Returned _ _ _ _ _ Htrack). cbn [i].
  rewrite (bind_Returned _ _ _ _ _ (Hidx _)).
  rewrite bind_Printf, Ht. cbv [bind time_Sleep ret].
  now rewrite !prints_cons, !prints_nil.
Qed.

End Iteration.

Lemma pollStep_contract_witness :
  let host := sampleHost "DNS" [sampleEndpoint "93.184.216.34" 0] in
  let w := initial [hostResponse 200 "200 OK" host] in
  exists (c' : Locals) (lines : list string),
    0 <= i c' < 1
    /\ pollStep NewSSLClient "example.com"
                {| i := 0; endpoint := 1; flag := false |} w
       = Returned (inl c')
           (emit (Sleep 10)
              (prints lines
                 (answered []
                    (emit (HttpGet (statusUrl NewSSLClient "example.com")) w)))).
Proof.
  intros host w.
  exact (pollStep_contract NewSSLClient "example.com"
           (hostReply 200 "200 OK" host) [] (hostDocument host) host
           eq_refl eq_refl {| i := 0; endpoint := 1; flag := false |} w
           eq_refl ltac:(cbn; lia)).
Defined.

Lemma pollStep_quiet_witness :
  let e := sampleEndpoint "93.184.216.34" 40 in
  let host := sampleHost "IN_PROGRESS" [e] in
  let w := initial [hostResponse 200 "200 OK" host] in
  let c := {| i := 0; endpoint := 2; flag := true |} in
  pollStep NewSSLClient "example.com" c w
  = Returned (inl c)
      (emit (Sleep 10)
         (prints [progressLine host e]
            (answered []
               (emit (HttpGet (statusUrl NewSSLClient "example.com")) w)))).
Proof.
  intros e host w c.
  exact (pollStep_quiet NewSSLClient "example.com"
           (hostReply 200 "200 OK" host) [] (hostDocument host) host
           eq_refl eq_refl c e w eq_refl eq_refl ltac:(cbn; lia) eq_refl
           ltac:(cbn; lia) eq_refl).
Defined.

Lemma pollStep_repeats_finished_endpoint_witness :
  let e := sampleEndpoint "93.184.216.34" 100 in
  let host := sampleHost "IN_PROGRESS" [e] in
  let w := initial [hostResponse 200 "200 OK" host] in
  let c := {| i := 0; endpoint := 2; flag := true |} in
  pollStep NewSSLClient "example.com" c w
  = Returned (inl c)
      (emit (Sleep 10)
         (prints [progressLine host e; progressLine host e]
            (answered []
               (emit (HttpGet (statusUrl NewSSLClient "example.com")) w)))).
Proof.
  intros e host w c.
  exact (pollStep_repeats_finished_endpoint NewSSLClient "example.com"
           (hostReply 200 "200 OK" host) [] (hostDocument host) host
           eq_refl eq_refl c e w eq_refl eq_refl ltac:(cbn; lia) eq_refl
           eq_refl eq_refl ltac:(cbn; lia) eq_refl).
Defined.

Lemma pollStep_first_witness :
  let e := sampleEndpoint "93.184.216.34" 40 in
  let host := sampleHost "IN_PROGRESS" [e] in
  let w := initial [hostResponse 200 "200 OK" host] in
  pollStep NewSSLClient "example.com" {| i := 0; endpoint := 1; flag := false |} w
  = Returned (inl {| i := 0; endpoint := 2; flag := true |})
      (emit (Sleep 10)
         (prints [headerLine 1; progressLine host e]
            (answered []
               (emit (HttpGet (statusUrl NewSSLClient "example.com")) w)))).
Proof.
  intros e host w.
  exact (pollStep_first NewSSLClient "example.com"
           (hostReply 200 "200 OK" host) [] (hostDocument host) host
           eq_refl eq_refl e [] w eq_refl eq_refl ltac:(cbn; lia) eq_refl).
Defined.

(** ** The loop across pending snapshots *)

(** Through a run of pending snapshots the loop makes one request and
    one pause per snapshot and arrives, with the cursor in range, at what
    follows the run. *)
Lemma pollLoop_through_pending (s : SSLClient) (d : string) (m : Z)
      (tail : list GetResult) (k : nat) :
  forall (pre : list GetResult) (n : Z) (c : Locals) (w : World),
    script w = (pre ++ tail)%list ->
    pendingRun n pre m ->
    0 <= i c < n ->
    exists (c' : Locals) (w' : World),
      pollLoop (List.length pre + k) s d c w = pollLoop k s d c' w'
      /\ script w' = tail
      /\ 0 <= i c' < m
      /\ requests (trace w')
         = (requests (trace w) ++ repeat (statusUrl s d) (List.length pre))%list
      /\ sleeps (trace w')
         = (sleeps (trace w) ++ repeat 10 (List.length pre))%list.
Proof.
  induction pre as [|q pre IH]; intros n c w Hs Hrun Hi.
  - cbn in Hrun. subst m. exists c, w. cbn [List.length repeat Nat.add].
    rewrite !app_nil_r. repeat split; try assumption; lia.
  - cbn [pendingRun] in Hrun.
    destruct Hrun as [h [Hq [Hnt [Hn Hrun]]]].
    destruct (decoded_Some q h Hq) as [qresp [qdoc [-> [Hqb Hqd]]]].
    cbn [app] in Hs.
    destruct (pollStep_in_range s d qresp (pre ++ tail)%list qdoc h Hqb Hqd
                c w Hs ltac:(lia)) as [c1 [lines [Hi1 [_ Hstep]]]].
    rewrite Hnt in Hstep.
    cbn [List.length Nat.add pollLoop].
    rewrite (bind_Returned _ _ _ _ _ Hstep).
    destruct (IH (len (Host.Endpoints h)) c1
                 (emit (Sleep 10)
                    (prints lines
                       (answered (pre ++ tail)%list
                          (emit (HttpGet (statusUrl s d)) w))))
                 eq_refl Hrun Hi1)
      as [c' [w' [Hloop [Hscript [Hi' [Hreq Hsl]]]]]].
    exists c', w'. split; [exact Hloop|]. split; [exact Hscript|].
    split; [exact Hi'|]. split.
    + rewrite Hreq, requests_emit, requests_prints. cbn [answered trace].
      rewrite requests_emit. cbn [requests flat_map app repeat].
      now rewrite !app_nil_r, <- app_assoc.
    + rewrite Hsl, sleeps_emit, sleeps_prints. cbn [answered trace].
      rewrite sleeps_emit. cbn [sleeps flat_map app].
      rewrite !app_nil_r, <- app_assoc. reflexivity.
Qed.

Lemma CheckAssessmentStatus_undecoded (s : SSLClient) (d : string) (w : World)
      (r : GetResult) (rest : list GetResult) :
  script w = r :: rest ->
  decoded r = None ->
  exists e : string,
    CheckAssessmentStatus s d w
    = Returned (Err e) (answered rest (emit (HttpGet (statusUrl s d)) w))
    /\ (forall err, r = GetErr err ->
                    e = "failed to check assessment status: " ++ err).
Proof.
  intros Hs Hd. unfold CheckAssessmentStatus.
  rewrite (bind_Returned _ _ _ _ _ (http_Get_answered _ _ _ _ Hs)).
  destruct r as [err|resp].
  - eexists. split; [reflexivity|]. now intros err' [= <-].
  - cbn [decoded] in Hd.
    destruct (io_ReadAll (RespBody resp)) as [doc|err].
    + destruct (json_Unmarshal_Host doc) as [h|err]; [discriminate|].
      eexists. split; [reflexivity | discriminate].
    + eexists. split; [reflexivity | discriminate].
Qed.

Lemma fuel_split (pre : list GetResult) (r : GetResult) (rest : list GetResult) :
  S (List.length (pre ++ r :: rest))
  = (List.length pre + S (S (List.length rest)))%nat.
Proof. rewrite length_app. cbn [List.length]. lia. Qed.

Section Waiting.

(** WaitForAssessment in a world whose first answers, [pre], are pending
    snapshots with endpoints, never fewer than before. *)
Variables (s : SSLClient) (d : string).
Variables (pre : list GetResult) (m : Z).
Hypothesis Hpending : pendingRun 1 pre m.

Local Abbreviation announce w :=
  (emit (Stdout ("Waiting for assessment to complete..." ++ nl)) w).

Lemma wait_through_pending (tail : list GetResult) (k : nat) (w : World) :
  script w = (pre ++ tail)%list ->
  exists (c' : Locals) (w' : World),
    pollLoop (List.length pre + k) s d
             {| i := 0; endpoint := 1; flag := false |} (announce w)
    = pollLoop k s d c' w'
    /\ script w' = tail
    /\ 0 <= i c' < m
    /\ requests (trace w')
       = (requests (trace w) ++ repeat (statusUrl s d) (List.length pre))%list
    /\ sleeps (trace w')
       = (sleeps (trace w) ++ repeat 10 (List.length pre))%list.
Proof.
  intros Hs.
  destruct (pollLoop_through_pending s d m tail k pre 1
              {| i := 0; endpoint := 1; flag := false |} (announce w)
              Hs Hpending ltac:(cbn; lia))
    as [c' [w' [Hloop [Hscript [Hi [Hreq Hsl]]]]]].
  exists c', w'. repeat (split; [assumption|]).
  rewrite Hreq, Hsl, requests_emit, sleeps_emit.
  cbn [requests sleeps flat_map]. now rewrite !app_nil_r.
Qed.

(** X12: when every snapshot up to and including the first terminal
    one has endpoints, never fewer than the one before (the terminal one
    no fewer than the last pending one), WaitForAssessment returns that
    terminal snapshot unchanged.  It has then made one status request
    per snapshot read, has paused ten seconds after each pending one and
    not after the terminal one, and has left the later answers unread. *)
Theorem WaitForAssessment_first_terminal
        (r : GetResult) (rest : list GetResult) (host : Host.t) (w : World) :
  script w = (pre ++ r :: rest)%list ->
  decoded r = Some host ->
  terminal (Host.Status host) = true ->
  m <= len (Host.Endpoints host) ->
  exists w' : World,
    WaitForAssessment s d w = Returned (Ok host) w'
    /\ script w' = rest
    /\ requests (trace w')
       = (requests (trace w)
          ++ repeat (statusUrl s d) (S (List.length pre)))%list
    /\ sleeps (trace w')
       = (sleeps (trace w) ++ repeat 10 (List.length pre))%list.
Proof.
  intros Hs Hdec Hterm Hm.
  destruct (decoded_Some r host Hdec) as [resp [doc [-> [Hb Hd]]]].
  rewrite WaitForAssessment_unfold, Hs, fuel_split.
  destruct (wait_through_pending (GetOk resp :: rest) (S (S (List.length rest)))
              w Hs)
    as [c' [w1 [Hloop [Hscript [Hi [Hreq Hsl]]]]]].
  rewrite Hloop.
  destruct (pollLoop_terminal_in_range s d resp rest doc host Hb Hd
              (S (List.length rest)) c' w1 Hscript Hterm ltac:(lia))
    as [lines Hl].
  eexists. split; [exact Hl|]. split; [reflexivity|].
  rewrite requests_prints, sleeps_prints. cbn [answered trace].
  rewrite requests_emit, sleeps_emit, Hreq, Hsl.
  cbn [requests sleeps flat_map]. rewrite !app_nil_r, <- app_assoc.
  split; [|reflexivity].
  f_equal. change [statusUrl s d] with (repeat (statusUrl s d) 1).
  rewrite <- repeat_app. f_equal. lia.
Qed.

(** X13: while every answer is a pending snapshot with endpoints, never
    fewer than before, WaitForAssessment neither returns nor panics: after
    the last answer it has paused once per snapshot and is waiting for the
    answer to one more status request. *)
Theorem WaitForAssessment_pending (w : World) :
  script w = pre ->
  exists w' : World,
    WaitForAssessment s d w = Starved w'
    /\ requests (trace w')
       = (requests (trace w)
          ++ repeat (statusUrl s d) (S (List.length pre)))%list
    /\ sleeps (trace w')
       = (sleeps (trace w) ++ repeat 10 (List.length pre))%list.
Proof.
  intros Hs.
  rewrite WaitForAssessment_unfold, Hs.
  destruct (wait_through_pending [] 1%nat w ltac:(now rewrite app_nil_r))
    as [c' [w1 [Hloop [Hscript [Hi [Hreq Hsl]]]]]].
  rewrite Nat.add_1_r in Hloop.
  exists (emit (HttpGet (statusUrl s d)) w1). split.
  - rewrite Hloop. cbn [pollLoop]. apply bind_Starved. unfold pollStep.
    apply bind_Starved. unfold CheckAssessmentStatus.
    apply bind_Starved. now apply http_Get_starved.
  - rewrite requests_emit, sleeps_emit, Hreq, Hsl.
    cbn [requests sleeps flat_map]. rewrite !app_nil_r, <- app_assoc.
    split; [|reflexivity].
    f_equal. change [statusUrl s d] with (repeat (statusUrl s d) 1).
    rewrite <- repeat_app. f_equal. lia.
Qed.


End Waiting.

Lemma WaitForAssessment_first_terminal_witness :
  let e p := sampleEndpoint "93.184.216.34" p in
  let pending := sampleHost "IN_PROGRESS" [e 40] in
  let ready := sampleHost "READY" [e 100] in
  let w := initial [ hostResponse 200 "200 OK" pending;
                     hostResponse 200 "200 OK" ready ] in
  exists w' : World,
    WaitForAssessment NewSSLClient "example.com" w = Returned (Ok ready) w'
    /\ script w' = []
    /\ requests (trace w')
       = repeat (statusUrl NewSSLClient "example.com") 2
    /\ sleeps (trace w') = [10].
Proof.
  intros e pending ready w.
  apply (WaitForAssessment_first_terminal NewSSLClient "example.com"
           [hostResponse 200 "200 OK" pending] 1
           ltac:(exists pending; cbn; repeat split; lia)
           (hostResponse 200 "200 OK" ready) [] ready w);
    [reflexivity | reflexivity | reflexivity | cbn; lia].
Defined.

Lemma WaitForAssessment_pending_witness :
  let e p := sampleEndpoint "93.184.216.34" p in
  let pending := sampleHost "IN_PROGRESS" [e 40] in
  let w := initial [ hostResponse 200 "200 OK" pending ] in
  exists w' : World,
    WaitForAssessment NewSSLClient "example.com" w = Starved w'
    /\ requests (trace w')
       = repeat (statusUrl NewSSLClient "example.com") 2
    /\ sleeps (trace w') = [10].
Proof.
  intros e pending w.
  apply (WaitForAssessment_pending NewSSLClient "example.com"
           [hostResponse 200 "200 OK" pending] 1
           ltac:(exists pending; cbn; repeat split; lia) w).
  reflexivity.
Defined.


(** ** The report of a failed assessment *)

(** X15: for an assessment with status ERROR displayResults prints the
    header, the domain, the status and the status message of the
    assessment, and nothing about its endpoints or its test time. *)
Theorem displayResults_error_report (host : Host.t) (w : World) :
  Host.Status host = "ERROR" ->
  displayResults host w
  = Returned tt
      (prints [ "Assessment Results:" ++ nl;
                "Domain: " ++ Host.Host host ++ nl;
                "Status: ERROR" ++ nl;
                "Assessment failed: " ++ Host.StatusMessage host ++ nl ] w).
Proof. apply displayResults_ERROR. Qed.

Lemma displayResults_error_report_witness :
  output (trace (finalWorld
    (displayResults (sampleHost "ERROR" [sampleEndpoint "93.184.216.34" 100])
                    (initial []))))
  = [ "Assessment Results:" ++ nl;
      "Domain: example.com" ++ nl;
      "Status: ERROR" ++ nl;
      "Assessment failed: Unable to resolve domain name" ++ nl ].
Proof.
  rewrite (displayResults_error_report
             (sampleHost "ERROR" [sampleEndpoint "93.184.216.34" 100])
             (initial []) eq_refl).
  reflexivity.
Defined.

(** ** Whole runs *)

Lemma confined_tail {A B} (P : Event -> Prop) (m : IO A) (k : A -> IO B)
      (w : World) :
  (forall a, confined P (k a)) ->
  exists t : list Event,
    trace (finalWorld (bind m k w)) = (trace (finalWorld (m w)) ++ t)%list.
Proof.
  intros Hk. unfold bind.
  destruct (m w) as [a w1|p w1|c w1|w1];
    try (exists []; cbn; now rewrite app_nil_r).
  destruct (Hk a w1) as [t [Ht _]]. now exists t.
Qed.

Lemma confined_wait_in_run (args : Flags) :
  confined (runEvent args) (WaitForAssessment NewSSLClient (domain args)).
Proof.
  apply (confined_weaken (pollEvent NewSSLClient (domain args)));
    [|apply confined_WaitForAssessment].
  intros [url| | |n]; cbn; auto.
Qed.

Section Capacity.

Variables (args : Flags) (w w1 : World) (info : Info.t).
Hypothesis Hhelp : help args = false.
Hypothesis Hdomain : domain args <> EmptyString.
Hypothesis Hinfo : CheckApiStatus NewSSLClient w = Returned (Ok info) w1.

(** X16: when the service reports fewer current assessments than its
    maximum, main goes on to the start request: after the two lines that
    announce it, the next event of the run is the request to the start
    URL, whatever the service answers to it. *)
Theorem start_request_follows_capacity_check :
  Info.CurrentAssessments info < Info.MaxAssessments info ->
  exists t : list Event,
    trace (finalWorld (main args w))
    = List.app (trace (announced args w1))
        (HttpGet (startUrl NewSSLClient (domain args) (publish args)) :: t).
Proof.
  intros Hcap. unfold main. rewrite (proceeds args Hhelp Hdomain).
  rewrite (bind_Returned _ _ w w tt eq_refl).
  rewrite (bind_Returned _ _ _ _ _ Hinfo).
  rewrite (bind_Returned _ _ w1 w1 info eq_refl).
  rewrite (capacity_left info Hcap).
  rewrite (bind_Returned _ _ w1 w1 tt eq_refl).
  unfold Println. rewrite !bind_Printf.
  match goal with
  | |- context [bind (StartAssessment ?a ?b ?c) ?K ?w0] =>
      destruct (confined_tail (runEvent args) (StartAssessment a b c) K w0)
        as [t Ht]
  end.
  { intros r. apply confined_bind; [confine|]. intros host.
    apply confined_bind; [apply confined_Printf; exact I | intros _].
    apply confined_bind.
    - apply confined_if; [|apply confined_ret].
      apply confined_bind; [apply confined_wait_in_run|]. intros r3. confine.
    - intros host'.
      apply (confined_weaken isStdout); [|apply confined_displayResults].
      now intros []. }
  exists t. rewrite Ht, StartAssessment_trace.
  unfold announced. rewrite !prints_cons, prints_nil.
  now rewrite <- app_assoc.
Qed.

End Capacity.

Lemma start_request_follows_capacity_check_witness :
  let args := {| domain := "example.com"; publish := true; help := false |} in
  let w := initial [ infoResponse (sampleInfo 20 19) ] in
  exists t : list Event,
    requests (trace (finalWorld (main args w)))
    = List.app
        [ "https://api.ssllabs.com/api/v2/info";
          "https://api.ssllabs.com/api/v2/analyze?host=example.com&all=done&startNew=on&publish=on" ]
        (requests t).
Proof.
  intros args w.
  pose proof (CheckApiStatus_decoded NewSSLClient w
                (infoReply (sampleInfo 20 19)) []
                (infoDocument (sampleInfo 20 19)) (sampleInfo 20 19)
                eq_refl eq_refl eq_refl eq_refl) as Hc.
  destruct (start_request_follows_capacity_check args w _ (sampleInfo 20 19)
              eq_refl ltac:(discriminate) Hc ltac:(cbn; lia)) as [t Ht].
  exists t. rewrite Ht, requests_app. reflexivity.
Defined.

(** X17: a complete run.  When the service answers the /info request with
    capacity left, the start request with a pending snapshot, and the
    polls with pending snapshots and then a terminal one, every polled
    snapshot, the terminal one included, having endpoints and never fewer
    than the one polled before, main renders that terminal snapshot and
    ends with status 0.  Its requests are, in order, /info, the start
    URL, and the status URL once per snapshot polled; the answers after
    the terminal snapshot are left unread. *)
Theorem main_complete_run
        (args : Flags) (w : World)
        (iresp sresp : Response) (idoc sdoc : Document)
        (info : Info.t) (host0 host : Host.t)
        (pre : list GetResult) (m : Z) (r : GetResult) (rest : list GetResult) :
  help args = false -> domain args <> EmptyString ->
  script w = GetOk iresp :: GetOk sresp :: (pre ++ r :: rest)%list ->
  StatusCode iresp = http_StatusOK ->
  RespBody iresp = Readable idoc -> asInfo idoc = Ok info ->
  Info.CurrentAssessments info < Info.MaxAssessments info ->
  RespBody sresp = Readable sdoc -> asHost sdoc = Ok host0 ->
  terminal (Host.Status host0) = false ->
  pendingRun 1 pre m ->
  decoded r = Some host ->
  terminal (Host.Status host) = true ->
  m <= len (Host.Endpoints host) ->
  exists w3 : World,
    main args w = displayResults host w3
    /\ exitCode (main args w) = Some 0
    /\ script (finalWorld (main args w)) = rest
    /\ requests (trace (finalWorld (main args w)))
       = List.app (requests (trace w))
           ("https://api.ssllabs.com/api/v2/info"
            :: startUrl NewSSLClient (domain args) (publish args)
            :: repeat (statusUrl NewSSLClient (domain args))
                      (S (List.length pre))).
Proof.
  intros Hhelp Hdomain Hs Hcode Hib Hid Hcap Hsb Hsd Hnt Hrun Hdec Hterm Hm.
  pose proof (CheckApiStatus_decoded NewSSLClient w iresp _ idoc info
                Hs Hcode Hib Hid) as Hc.
  match type of Hc with
  | _ = Returned _ ?x => set (w1 := x) in *
  end.
  pose proof (StartAssessment_decoded NewSSLClient (domain args) (publish args)
                (announced args w1) sresp (pre ++ r :: rest)%list sdoc host0
                eq_refl Hsb Hsd) as Hst.
  match type of Hst with
  | _ = Returned _ ?x => set (w2 := x) in *
  end.
  destruct (WaitForAssessment_returns_first_terminal NewSSLClient (domain args)
              pre r rest host m (started host0 w2) eq_refl Hrun Hdec Hterm Hm)
    as [w3 [Hw [Hscript Hreq]]].
  pose proof (main_wait_done args w Hhelp Hdomain info w1 Hc Hcap
                host0 host w2 w3 Hst Hnt Hw) as Hmain.
  exists w3. split; [exact Hmain|]. rewrite Hmain.
  split; [apply exitCode_displayResults|].
  destruct (displayResults_returns host w3) as [lines Hl]. rewrite Hl.
  cbn [finalWorld]. rewrite script_prints, requests_prints.
  split; [exact Hscript|].
  rewrite Hreq. unfold started. rewrite requests_prints.
  subst w2. cbn [answered trace]. rewrite requests_emit.
  unfold announced. rewrite requests_prints.
  subst w1. rewrite requests_prints. cbn [answered trace].
  rewrite requests_emit. cbn [requests flat_map app].
  now rewrite ?app_nil_r, <- ?app_assoc.
Qed.

Lemma main_complete_run_witness :
  let args := {| domain := "example.com"; publish := false; help := false |} in
  let e p := sampleEndpoint "93.184.216.34" p in
  let pending := sampleHost "IN_PROGRESS" [e 40] in
  let ready := sampleHost "READY" [e 100] in
  let w := initial [ infoResponse (sampleInfo 20 3);
                     hostResponse 200 "200 OK" (sampleHost "DNS" []);
                     hostResponse 200 "200 OK" pending;
                     hostResponse 200 "200 OK" ready ] in
  exists w3 : World,
    main args w = displayResults ready w3
    /\ exitCode (main args w) = Some 0
    /\ script (finalWorld (main args w)) = []
    /\ requests (trace (finalWorld (main args w)))
       = [ "https://api.ssllabs.com/api/v2/info";
           "https://api.ssllabs.com/api/v2/analyze?host=example.com&all=done&startNew=on";
           "https://api.ssllabs.com/api/v2/analyze?host=example.com&all=done";
           "https://api.ssllabs.com/api/v2/analyze?host=example.com&all=done" ].
Proof.
  intros args e pending ready w.
  apply (main_complete_run args w
           (infoReply (sampleInfo 20 3))
           (hostReply 200 "200 OK" (sampleHost "DNS" []))
           (infoDocument (sampleInfo 20 3))
           (hostDocument (sampleHost "DNS" []))
           (sampleInfo 20 3) (sampleHost "DNS" []) ready
           [hostResponse 200 "200 OK" pending] 1
           (hostResponse 200 "200 OK" ready) []);
    try reflexivity;
    first [ discriminate
          | exists pending; cbn; repeat split; lia
          | cbn; unfold len; cbn; lia ].
Defined.

Lemma WaitForAssessment_first_poll_fails (s : SSLClient) (d : string)
      (w : World) (err : string) (rest : list GetResult) :
  script w = GetErr err :: rest ->
  WaitForAssessment s d w
  = Returned
      (Err ("failed to check assessment status: "
            ++ "failed to check assessment status: " ++ err))
      (answered rest
         (emit (HttpGet (statusUrl s d))
            (emit (Stdout ("Waiting for assessment to complete..." ++ nl)) w))).
Proof.
  intros Hs. rewrite WaitForAssessment_unfold. cbn [pollLoop].
  set (w0 := emit (Stdout ("Waiting for assessment to complete..." ++ nl)) w).
  destruct (CheckAssessmentStatus_undecoded s d w0 (GetErr err) rest Hs eq_refl)
    as [e [Hcheck Hmsg]].
  rewrite (Hmsg err eq_refl) in Hcheck.
  assert (Hstep : pollStep s d {| i := 0; endpoint := 1; flag := false |} w0
                  = Returned
                      (inr (Err ("failed to check assessment status: "
                                 ++ "failed to check assessment status: " ++ err)))
                      (answered rest (emit (HttpGet (statusUrl s d)) w0))).
  { unfold pollStep. now rewrite (bind_Returned _ _ _ _ _ Hcheck). }
  now rewrite (bind_Returned _ _ _ _ _ Hstep).
Qed.

(** X18: what the user reads when a request fails.  In a run with a
    domain, a transport error [err] makes main exit with status 1 after
    one line: at the /info request "Error: failed to reach SSL Labs API:
    err", at the start request "Error starting assessment: failed to
    start assessment: err", at the first poll "Error waiting for
    assessment: failed to check assessment status: failed to check
    assessment status: err"; and a status other than 200 at the /info
    request gives "Error: API returned non-OK status: " and the status
    text. *)
Theorem main_failure_messages (args : Flags) (w : World) (err : string) :
  help args = false -> domain args <> EmptyString ->
  (forall rest,
      script w = GetErr err :: rest ->
      main args w
      = Exited 1
          (prints [ "Error: " ++ ("failed to reach SSL Labs API: " ++ err) ++ nl ]
             (answered rest
                (emit (HttpGet "https://api.ssllabs.com/api/v2/info") w))))
  /\ (forall resp rest,
         script w = GetOk resp :: rest ->
         StatusCode resp <> http_StatusOK ->
         main args w
         = Exited 1
             (prints [ "Error: "
                       ++ ("API returned non-OK status: " ++ Status resp) ++ nl ]
                (answered rest
                   (emit (HttpGet "https://api.ssllabs.com/api/v2/info") w))))
  /\ (forall info w1,
         CheckApiStatus NewSSLClient w = Returned (Ok info) w1 ->
         Info.CurrentAssessments info < Info.MaxAssessments info ->
         (forall rest,
             script w1 = GetErr err :: rest ->
             main args w
             = Exited 1
                 (prints [ "Error starting assessment: "
                           ++ ("failed to start assessment: " ++ err) ++ nl ]
                    (answered rest
                       (emit (HttpGet (startUrl NewSSLClient (domain args)
                                                (publish args)))
                             (announced args w1)))))
         /\ (forall host w2 rest,
                StartAssessment NewSSLClient (domain args) (publish args)
                                (announced args w1)
                = Returned (Ok host) w2 ->
                terminal (Host.Status host) = false ->
                script w2 = GetErr err :: rest ->
                main args w
                = Exited 1
                    (prints [ "Error waiting for assessment: "
                              ++ ("failed to check assessment status: "
                                  ++ "failed to check assessment status: " ++ err)
                              ++ nl ]
                       (answered rest
                          (emit (HttpGet (statusUrl NewSSLClient (domain args)))
                             (emit (Stdout ("Waiting for assessment to complete..."
                                            ++ nl))
                                   (started host w2))))))).
Proof.
  intros Hhelp Hdomain. split; [|split].
  - intros rest Hs.
    exact (main_info_error args w Hhelp Hdomain _ _
             (CheckApiStatus_unreachable NewSSLClient w err rest Hs)).
  - intros resp rest Hs Hcode.
    apply (main_info_error args w Hhelp Hdomain).
    unfold CheckApiStatus.
    rewrite (bind_Returned _ _ _ _ _ (http_Get_answered _ _ _ _ Hs)).
    apply Z.eqb_neq in Hcode. now rewrite Hcode.
  - intros info w1 Hc Hcap. split.
    + intros rest Hs.
      apply (main_start_error args w Hhelp Hdomain info w1 Hc Hcap).
      unfold StartAssessment.
      now rewrite (bind_Returned _ _ _ _ _
                     (http_Get_answered _ (announced args w1) _ _ Hs)).
    + intros host w2 rest Hst Hnt Hs.
      apply (main_wait_error args w Hhelp Hdomain info w1 Hc Hcap
               host w2 _ _ Hst Hnt).
      exact (WaitForAssessment_first_poll_fails NewSSLClient (domain args)
               (started host w2) err rest Hs).
Qed.

Lemma main_failure_messages_witness :
  output (trace (finalWorld
    (main {| domain := "example.com"; publish := false; help := false |}
          (initial [GetErr "dial tcp: i/o timeout"]))))
  = [ "Error: failed to reach SSL Labs API: dial tcp: i/o timeout" ++ nl ].
Proof.
  destruct (main_failure_messages
              {| domain := "example.com"; publish := false; help := false |}
              (initial [GetErr "dial tcp: i/o timeout"])
              "dial tcp: i/o timeout" eq_refl ltac:(discriminate))
    as [H _].
  rewrite (H [] eq_refl). reflexivity.
Defined.

(** X19: a run on a cached result.  When the service answers the /info
    request with capacity left and the start request with a snapshot that
    is already READY or ERROR, main ends by rendering that snapshot with
    displayResults and returns, so the process ends with status 0.  It
    has made exactly the /info and the start request, no pause, and has
    read no further answer. *)
Theorem main_cached_run
        (args : Flags) (w : World)
        (iresp sresp : Response) (idoc sdoc : Document)
        (info : Info.t) (host : Host.t) (rest : list GetResult) :
  help args = false -> domain args <> EmptyString ->
  script w = GetOk iresp :: GetOk sresp :: rest ->
  StatusCode iresp = http_StatusOK ->
  RespBody iresp = Readable idoc -> asInfo idoc = Ok info ->
  Info.CurrentAssessments info < Info.MaxAssessments info ->
  RespBody sresp = Readable sdoc -> asHost sdoc = Ok host ->
  terminal (Host.Status host) = true ->
  exists w3 : World,
    main args w = displayResults host w3
    /\ output (trace w3)
       = List.app (output (trace w))
           [ "SSL Labs API is reachable." ++ nl;
             "Criteria Version: " ++ Info.CriteriaVersion info ++ nl;
             "Concurrent assessments allowed: "
             ++ fmt_d (Info.MaxAssessments info) ++ nl;
             "Current assessments: "
             ++ fmt_d (Info.CurrentAssessments info) ++ nl;
             "Checking SSL/TLS for domain: " ++ domain args ++ nl;
             "Starting Assessment ...." ++ nl;
             "Assessment started for " ++ Host.Host host ++ nl ]
    /\ exitCode (main args w) = Some 0
    /\ script (finalWorld (main args w)) = rest
    /\ requests (trace (finalWorld (main args w)))
       = List.app (requests (trace w))
           [ "https://api.ssllabs.com/api/v2/info";
             startUrl NewSSLClient (domain args) (publish args) ]
    /\ sleeps (trace (finalWorld (main args w))) = sleeps (trace w).
Proof.
  intros Hhelp Hdomain Hs Hcode Hib Hid Hcap Hsb Hsd Hterm.
  pose proof (CheckApiStatus_decoded NewSSLClient w iresp _ idoc info
                Hs Hcode Hib Hid) as Hc.
  match type of Hc with
  | _ = Returned _ ?x => set (w1 := x) in *
  end.
  pose proof (StartAssessment_decoded NewSSLClient (domain args) (publish args)
                (announced args w1) sresp rest sdoc host
                eq_refl Hsb Hsd) as Hst.
  match type of Hst with
  | _ = Returned _ ?x => set (w2 := x) in *
  end.
  exists (started host w2).
  rewrite (main_started args w Hhelp Hdomain info w1 Hc Hcap host w2 Hst), Hterm.
  split; [reflexivity|].
  split.
  { unfold started. rewrite output_prints.
    subst w2. rewrite output_answered_request.
    unfold announced. rewrite output_prints.
    subst w1. rewrite output_prints, output_answered_request.
    now rewrite <- !app_assoc. }
  split; [apply exitCode_displayResults|].
  destruct (displayResults_returns host (started host w2)) as [lines Hl].
  rewrite Hl. cbn [finalWorld]. unfold started.
  rewrite !script_prints, !requests_prints, !sleeps_prints.
  subst w2. cbn [answered trace script].
  rewrite requests_emit, sleeps_emit.
  unfold announced. rewrite requests_prints, sleeps_prints.
  subst w1. rewrite requests_prints, sleeps_prints. cbn [answered trace].
  rewrite requests_emit, sleeps_emit. cbn [requests sleeps flat_map app].
  split; [reflexivity|].
  now rewrite ?app_nil_r, <- ?app_assoc.
Qed.

Lemma main_cached_run_witness :
  let args := {| domain := "example.com"; publish := false; help := false |} in
  let host := sampleHost "ERROR" [] in
  let w := initial [ infoResponse (sampleInfo 20 3);
                     hostResponse 200 "200 OK" host;
                     GetErr "never read" ] in
  output (trace (finalWorld (main args w)))
  = [ "SSL Labs API is reachable." ++ nl;
      "Criteria Version: 2009q" ++ nl;
      "Concurrent assessments allowed: 20" ++ nl;
      "Current assessments: 3" ++ nl;
      "Checking SSL/TLS for domain: example.com" ++ nl;
      "Starting Assessment ...." ++ nl;
      "Assessment started for example.com" ++ nl;
      "Assessment Results:" ++ nl;
      "Domain: example.com" ++ nl;
      "Status: ERROR" ++ nl;
      "Assessment failed: Unable to resolve domain name" ++ nl ]
  /\ exitCode (main args w) = Some 0
  /\ script (finalWorld (main args w)) = [ GetErr "never read" ]
  /\ requests (trace (finalWorld (main args w)))
     = [ "https://api.ssllabs.com/api/v2/info";
         "https://api.ssllabs.com/api/v2/analyze?host=example.com&all=done&startNew=on" ]
  /\ sleeps (trace (finalWorld (main args w))) = [].
Proof.
  intros args host w.
  destruct (main_cached_run args w
              (infoReply (sampleInfo 20 3)) (hostReply 200 "200 OK" host)
              (infoDocument (sampleInfo 20 3)) (hostDocument host)
              (sampleInfo 20 3) host [GetErr "never read"]
              eq_refl ltac:(discriminate) eq_refl eq_refl eq_refl eq_refl
              ltac:(cbn; lia) eq_refl eq_refl eq_refl)
    as [w3 [Hmain [Hout [Hexit [Hscript [Hreq Hsl]]]]]].
  split; [|repeat split; assumption].
  rewrite Hmain, (displayResults_ERROR host w3 eq_refl).
  cbn [finalWorld]. rewrite output_prints, Hout. reflexivity.
Defined.
